(** * update_articles.py: fetch the newest RSS entry, render it, link it

    A shallow embedding of [src/update_articles.py].

    - Python [str] values are modelled as [string], read as a sequence of
      code points below 256 (Latin-1); on that range [str.lower] and
      [str.isspace] are the character-wise functions given below, and
      [s[:50]] counts characters.
    - The file system is a record of the regular files (text by place),
      the directories and the text printed so far.  The record is the
      whole tree, and a run has the top of the tree, the root directory,
      as its working directory: a place is named by the names on the way to
      it from the top, joined by slashes, and [..] at the top stays there,
      as [/..] does.  A path is resolved to a place as the system does it:
      [.], [..] and repeated slashes are followed, every name on the way
      has to be a directory, and a path that holds the code point 0 is
      refused with [ValueError].  There are no symbolic links and no
      permissions.
    - The feed, the clock and the calendar are inputs of a run ([env]).
    - [html.unescape] follows Lib/html/__init__.py: a string without an
      ampersand is returned as it is, any other goes through the
      character-reference substitution, which is a parameter here. *)

From Stdlib Require Import Ascii String.
From stdpp Require Import gmap strings list fin_maps.

(** ** Python [str] primitives *)

Module Str.

Definition nl : string := String "010"%char EmptyString.
Definition dq : string := String "034"%char EmptyString.
Definition e_acute : string := String "233"%char EmptyString.

(** [needle in hay] *)
Fixpoint contains (needle hay : string) : bool :=
  String.prefix needle hay
  || match hay with
     | EmptyString => false
     | String _ rest => contains needle rest
     end.

Fixpoint has_char (a : ascii) (s : string) : bool :=
  match s with
  | EmptyString => false
  | String c rest => bool_decide (c = a) || has_char a rest
  end.

(** [s[:n]] *)
Fixpoint take (n : nat) (s : string) : string :=
  match n, s with
  | S n', String c rest => String c (take n' rest)
  | _, _ => EmptyString
  end.

(** [chr(c).lower()] for a code point below 256 *)
Definition lower_char (c : ascii) : ascii :=
  let n := nat_of_ascii c in
  if ((65 <=? n) && (n <=? 90))
     || ((192 <=? n) && (n <=? 222) && negb (n =? 215))
  then ascii_of_nat (n + 32) else c.

Fixpoint lower (s : string) : string :=
  match s with
  | EmptyString => EmptyString
  | String c rest => String (lower_char c) (lower rest)
  end.

(** [chr(c).isspace()] for a code point below 256 *)
Definition isspace (c : ascii) : bool :=
  let n := nat_of_ascii c in
  ((9 <=? n) && (n <=? 13)) || ((28 <=? n) && (n <=? 32))
  || (n =? 133) || (n =? 160).

Definition cons_word (w : string) (ws : list string) : list string :=
  match w with
  | EmptyString => ws
  | _ => w :: ws
  end.

(** The word that [s] starts with, and the words after its first
    whitespace. *)
Fixpoint split_go (s : string) : string * list string :=
  match s with
  | EmptyString => (EmptyString, [])
  | String c rest =>
      let '(w, ws) := split_go rest in
      if isspace c then (EmptyString, cons_word w ws)
      else (String c w, ws)
  end.

(** [s.split()] *)
Definition split (s : string) : list string :=
  let '(w, ws) := split_go s in cons_word w ws.

(** [sep.join(ws)] *)
Definition join (sep : string) (ws : list string) : string :=
  String.concat sep ws.

(** [f.writelines(lines)]: the lines one after the other, nothing added *)
Definition cat (ls : list string) : string := String.concat EmptyString ls.

(** Text-mode reading with [newline=None]: CR LF and a lone CR are read
    as LF. *)
Fixpoint universal_newlines (s : string) : string :=
  match s with
  | EmptyString => EmptyString
  | String c rest =>
      if bool_decide (c = "013"%char) then
        match rest with
        | String c' rest' =>
            if bool_decide (c' = "010"%char)
            then String "010"%char (universal_newlines rest')
            else String "010"%char (universal_newlines rest)
        | EmptyString => String "010"%char EmptyString
        end
      else String c (universal_newlines rest)
  end.

(** The lines of a text, each with its line feed (the last one may lack
    it). *)
Fixpoint splitlines (s : string) : list string :=
  match s with
  | EmptyString => []
  | String c rest =>
      if bool_decide (c = "010"%char) then String c EmptyString :: splitlines rest
      else match splitlines rest with
           | [] => [String c EmptyString]
           | l :: ls => String c l :: ls
           end
  end.

(** [f.readlines()] on the decoded text of a file *)
Definition readlines (text : string) : list string :=
  splitlines (universal_newlines text).

Definition digit (n : nat) : ascii := ascii_of_nat (48 + n mod 10).
(** ["%02d" % n] for [n < 100] and ["%04d" % n] for [n < 10000] *)
Definition d2 (n : nat) : string :=
  String (digit (n / 10)) (String (digit n) EmptyString).
Definition d4 (n : nat) : string :=
  String (digit (n / 1000)) (String (digit (n / 100)) (d2 n)).

End Str.

(** ** [posixpath] *)

Module PosixPath.

(** [p[:p.rfind('/') + 1]] *)
Fixpoint head_part (p : string) : string :=
  match p with
  | EmptyString => EmptyString
  | String c rest =>
      if Str.has_char "/" p then String c (head_part rest) else EmptyString
  end.

Fixpoint all_slashes (s : string) : bool :=
  match s with
  | EmptyString => true
  | String c rest => bool_decide (c = "/"%char) && all_slashes rest
  end.

(** [s.rstrip('/')] *)
Fixpoint rstrip_slash (s : string) : string :=
  match s with
  | EmptyString => EmptyString
  | String c rest =>
      match rstrip_slash rest with
      | EmptyString => if bool_decide (c = "/"%char) then EmptyString else String c EmptyString
      | rest' => String c rest'
      end
  end.

Definition dirname (p : string) : string :=
  let head := head_part p in
  if negb (bool_decide (head = EmptyString)) && negb (all_slashes head)
  then rstrip_slash head else head.

Definition startswith_slash (s : string) : bool :=
  match s with
  | String "/"%char _ => true
  | _ => false
  end.

Fixpoint endswith_slash (s : string) : bool :=
  match s with
  | EmptyString => false
  | String c EmptyString => bool_decide (c = "/"%char)
  | String _ rest => endswith_slash rest
  end.

(** [os.path.join(a, b)] *)
Definition join (a b : string) : string :=
  if startswith_slash b then b
  else if bool_decide (a = EmptyString) || endswith_slash a then a +:+ b
  else a +:+ "/" +:+ b.

(** [p.split('/')]: the names between the slashes, empty ones included *)
Fixpoint components (p : string) : list string :=
  match p with
  | EmptyString => [EmptyString]
  | String c rest =>
      if bool_decide (c = "/"%char) then EmptyString :: components rest
      else match components rest with
           | x :: xs => String c x :: xs
           | [] => [String c EmptyString]
           end
  end.

(** The names of a path: its components that are not empty. *)
Definition names (p : string) : list string :=
  filter (fun c => c <> EmptyString) (components p).

End PosixPath.

(** ** The file system and the effects of a run *)

Inductive exn : Type :=
  | FileNotFoundError
  | FileExistsError
  | IsADirectoryError
  | NotADirectoryError
  | ValueError.

Record world : Type := World {
  files : gmap string string;
  dirs : gset string;
  stdout : list string
}.

Inductive outcome (A : Type) : Type :=
  | Ok (a : A)
  | Raise (e : exn).
Arguments Ok {A} a.
Arguments Raise {A} e.

Definition M (A : Type) : Type := world -> outcome A * world.

Definition ret {A} (a : A) : M A := fun w => (Ok a, w).
Definition raise {A} (e : exn) : M A := fun w => (Raise e, w).
Definition bind {A B} (c : M A) (k : A -> M B) : M B :=
  fun w =>
    match c w with
    | (Ok a, w') => k a w'
    | (Raise e, w') => (Raise e, w')
    end.

Declare Scope run_scope.
Delimit Scope run_scope with run.
Notation "x <~ c ;; k" := (bind c (fun x => k))
  (at level 100, c at next level, right associativity) : run_scope.
Notation "c ;;; k" := (bind c (fun _ => k))
  (at level 100, right associativity) : run_scope.
Open Scope run_scope.

Module Fs.

(** What the record holds at a place. *)
Definition is_file (p : string) (w : world) : bool := bool_decide (is_Some (files w !! p)).
Definition is_dir (p : string) (w : world) : bool := bool_decide (p ∈ dirs w).

(** The place that is reached by the names [loc] from the top. *)
Definition key (loc : list string) : string := String.concat "/" loc.

Definition has_nul (p : string) : bool := Str.has_char "000"%char p.

(** One component on the way: it has to lead to a directory. *)
Definition step (c : string) (cur : list string) (w : world) : outcome (list string) :=
  if bool_decide (c = EmptyString) || bool_decide (c = ".") then Ok cur
  else if bool_decide (c = "..") then Ok (removelast cur)
  else if is_dir (key (cur ++ [c])) w then Ok (cur ++ [c])
  else if is_file (key (cur ++ [c])) w then Raise NotADirectoryError
  else Raise FileNotFoundError.

(** The components [cs] followed from [cur], each one a directory. *)
Fixpoint walk (cs : list string) (cur : list string) (w : world) : outcome (list string) :=
  match cs with
  | [] => Ok cur
  | c :: rest =>
      match step c cur w with
      | Ok cur' => walk rest cur' w
      | Raise e => Raise e
      end
  end.

(** What a path leads to: a directory that is there, or an entry of a
    directory that is there (the entry itself may be missing). *)
Inductive target : Type :=
  | Dir (loc : list string)
  | Entry (loc : list string).

Definition final (c : string) (cur : list string) : target :=
  if bool_decide (c = EmptyString) || bool_decide (c = ".") then Dir cur
  else if bool_decide (c = "..") then Dir (removelast cur)
  else Entry (cur ++ [c]).

Fixpoint locate (cs : list string) (cur : list string) (w : world) : outcome target :=
  match cs with
  | [] => Ok (Dir cur)
  | [c] => Ok (final c cur)
  | c :: rest =>
      match step c cur w with
      | Ok cur' => locate rest cur' w
      | Raise e => Raise e
      end
  end.

(** The look-up of a path by a system call. *)
Definition resolve (p : string) (w : world) : outcome target :=
  if has_nul p then Raise ValueError
  else if bool_decide (p = EmptyString) then Raise FileNotFoundError
  else locate (PosixPath.components p) [] w.

Definition target_exists (t : target) (w : world) : bool :=
  match t with
  | Dir _ => true
  | Entry loc => is_file (key loc) w || is_dir (key loc) w
  end.

Definition target_is_dir (t : target) (w : world) : bool :=
  match t with
  | Dir _ => true
  | Entry loc => is_dir (key loc) w
  end.

(** [os.path.exists(p)]: an error of the look-up is read as [False]. *)
Definition path_exists (p : string) : M bool :=
  fun w =>
    match resolve p w with
    | Ok t => (Ok (target_exists t w), w)
    | Raise _ => (Ok false, w)
    end.

(** [os.path.exists] and [os.path.isdir] on the names of a path *)
Definition exists_names (ns : list string) (w : world) : bool :=
  if existsb has_nul ns then false
  else match locate ns [] w with
       | Ok t => target_exists t w
       | Raise _ => false
       end.

Definition isdir_names (ns : list string) (w : world) : bool :=
  if existsb has_nul ns then false
  else match locate ns [] w with
       | Ok t => target_is_dir t w
       | Raise _ => false
       end.

(** [os.mkdir] on the names of a path *)
Definition mkdir_names (ns : list string) : M unit :=
  fun w =>
    if existsb has_nul ns then (Raise ValueError, w)
    else match locate ns [] w with
         | Raise e => (Raise e, w)
         | Ok (Dir _) => (Raise FileExistsError, w)
         | Ok (Entry loc) =>
             if is_file (key loc) w || is_dir (key loc) w then (Raise FileExistsError, w)
             else (Ok tt, World (files w) (dirs w ∪ {[ key loc ]}) (stdout w))
         end.

(** The last step of [os.makedirs(..., exist_ok=True)]: [mkdir], whose
    [OSError] is dropped when the directory is there. *)
Definition mkdir_exist_ok (ns : list string) : M unit :=
  fun w =>
    match mkdir_names ns w with
    | (Ok _, w') => (Ok tt, w')
    | (Raise ValueError, _) => (Raise ValueError, w)
    | (Raise e, _) => if isdir_names ns w then (Ok tt, w) else (Raise e, w)
    end.

(** [os.makedirs] on the names of the path from the last one back: the
    path without its last name is made first when it is not there. *)
Fixpoint makedirs_rev (rn : list string) (w : world) : outcome unit * world :=
  match rn with
  | [] => (Ok tt, w)
  | tail :: rhead =>
      if negb (bool_decide (rhead = [])) && negb (exists_names (rev rhead) w) then
        match makedirs_rev rhead w with
        | (Raise FileExistsError, w1)
        | (Ok _, w1) =>
            if bool_decide (tail = ".") then (Ok tt, w1)
            else mkdir_exist_ok (rev rn) w1
        | (Raise e, w1) => (Raise e, w1)
        end
      else mkdir_exist_ok (rev rn) w
  end.

(** [os.makedirs(p, exist_ok=True)] *)
Definition makedirs (p : string) : M unit :=
  fun w =>
    if bool_decide (p = EmptyString) then (Raise FileNotFoundError, w)
    else makedirs_rev (rev (PosixPath.names p)) w.

(** [open(p, "r").read()] *)
Definition read_text (p : string) : M string :=
  fun w =>
    match resolve p w with
    | Raise e => (Raise e, w)
    | Ok (Dir _) => (Raise IsADirectoryError, w)
    | Ok (Entry loc) =>
        if is_dir (key loc) w then (Raise IsADirectoryError, w)
        else match files w !! key loc with
             | Some text => (Ok text, w)
             | None => (Raise FileNotFoundError, w)
             end
    end.

(** [open(p, "w").write(text)].  A path that ends with a slash names a
    directory: when the names before its last one can be followed, it is
    refused as a directory, whatever is at its last name. *)
Definition write_text (p text : string) : M unit :=
  fun w =>
    if has_nul p then (Raise ValueError, w)
    else if bool_decide (p = EmptyString) then (Raise FileNotFoundError, w)
    else if PosixPath.endswith_slash p then
      match locate (PosixPath.names p) [] w with
      | Raise e => (Raise e, w)
      | Ok _ => (Raise IsADirectoryError, w)
      end
    else
      match locate (PosixPath.components p) [] w with
      | Raise e => (Raise e, w)
      | Ok (Dir _) => (Raise IsADirectoryError, w)
      | Ok (Entry loc) =>
          if is_dir (key loc) w then (Raise IsADirectoryError, w)
          else (Ok tt, World (<[key loc := text]> (files w)) (dirs w) (stdout w))
      end.

(** [print(text)] *)
Definition print (text : string) : M unit :=
  fun w => (Ok tt, World (files w) (dirs w) (stdout w ++ [text])).

End Fs.

(** ** Python list operations used on the lines of the index *)

(** The index of the first element that satisfies [p]: the
    [for i, x in enumerate(l): if p(x): ...; break] loops. *)
Fixpoint find_idx {A} (p : A -> bool) (l : list A) : option nat :=
  match l with
  | [] => None
  | x :: rest => if p x then Some 0 else S <$> find_idx p rest
  end.

(** The same search over [range(start, len(l))]. *)
Definition find_idx_from {A} (start : nat) (p : A -> bool) (l : list A) : option nat :=
  (fun j => start + j) <$> find_idx p (drop start l).

(** [l.insert(i, x)] for [0 <= i] *)
Definition insert_at {A} (i : nat) (x : A) (l : list A) : list A :=
  take i l ++ x :: drop i l.

(** [l[i:i] = xs] for [0 <= i] *)
Definition splice_at {A} (i : nat) (xs : list A) (l : list A) : list A :=
  take i l ++ xs ++ drop i l.

(** ** The program *)

Definition FEED_URL : string := "https://www.geopoliticalmonitor.com/feed/".
Definition NEWS_DIR : string := "news".
Definition INDEX_FILE : string := "index.html".

(** An entry of the parsed feed, as [entry.get(key, default)] reads it. *)
Abbreviation entry := (gmap string string).

Definition entry_get (e : entry) (key dflt : string) : string :=
  default dflt (e !! key).

Record feed : Type := Feed { entries : list entry }.

(** [datetime.date]: 1 <= year <= 9999, 1 <= month <= 12, 1 <= day <= 31 *)
Record date : Type := Date { year : nat; month : nat; day : nat }.

Definition isoformat (d : date) : string :=
  Str.d4 (year d) +:+ "-" +:+ Str.d2 (month d) +:+ "-" +:+ Str.d2 (day d).

(** What a run reads from outside: [feedparser.parse], the text of
    [datetime.datetime.utcnow().isoformat()] and [datetime.date.today()]. *)
Record env : Type := Env {
  feedparser_parse : string -> feed;
  utcnow_isoformat : string;
  today : date
}.

Record article_data : Type := Article {
  title : string;
  link : string;
  description : string;
  published : string
}.

Definition section_marker : string := "<section id=" +:+ Str.dq +:+ "derniers-articles" +:+ Str.dq.

(** The page of an article: the f-string of [generate_article_html]. *)
Definition article_html (a : article_data) : string :=
  Str.cat [
    Str.nl;
    "<!DOCTYPE html>"; Str.nl;
    "<html lang="; Str.dq; "fr"; Str.dq; ">"; Str.nl;
    "<head>"; Str.nl;
    "  <meta charset="; Str.dq; "UTF-8"; Str.dq; ">"; Str.nl;
    "  <meta name="; Str.dq; "viewport"; Str.dq; " content="; Str.dq;
      "width=device-width, initial-scale=1.0"; Str.dq; ">"; Str.nl;
    "  <title>"; title a; "</title>"; Str.nl;
    "  <link rel="; Str.dq; "stylesheet"; Str.dq; " href="; Str.dq; "../styles.css"; Str.dq; ">"; Str.nl;
    "</head>"; Str.nl;
    "<body>"; Str.nl;
    "  <header>"; Str.nl;
    "    <h1>"; title a; "</h1>"; Str.nl;
    "    <nav>"; Str.nl;
    "      <a href="; Str.dq; "../index.html"; Str.dq; ">Accueil</a>"; Str.nl;
    "    </nav>"; Str.nl;
    "  </header>"; Str.nl;
    "  <main class="; Str.dq; "article"; Str.dq; ">"; Str.nl;
    "    <p><em>Publi"; Str.e_acute; " le "; published a; "</em></p>"; Str.nl;
    "    <p>"; description a; "</p>"; Str.nl;
    "    <p>Lire l'article complet : <a href="; Str.dq; link a; Str.dq; ">source</a></p>"; Str.nl;
    "  </main>"; Str.nl;
    "  <footer>"; Str.nl;
    "    <p>Ce contenu provient d'un flux RSS externe. Pour plus d'articles, consultez la section actualit";
      Str.e_acute; "s du site.</p>"; Str.nl;
    "  </footer>"; Str.nl;
    "</body>"; Str.nl;
    "</html>"; Str.nl
  ].

Definition generate_article_html (a : article_data) (file_path : string) : M unit :=
  Fs.makedirs (PosixPath.dirname file_path) ;;;
  Fs.write_text file_path (article_html a).

Definition article_link (article_filename article_title : string) : string :=
  "    <li><a href=" +:+ Str.dq +:+ PosixPath.join NEWS_DIR article_filename +:+ Str.dq
  +:+ ">" +:+ article_title +:+ "</a></li>" +:+ Str.nl.

Definition section_html (link_line : string) : list string :=
  [ "  " +:+ section_marker +:+ ">" +:+ Str.nl;
    "    <h2>Derniers articles</h2>" +:+ Str.nl;
    "    <ul>" +:+ Str.nl;
    link_line;
    "    </ul>" +:+ Str.nl;
    "  </section>" +:+ Str.nl ].

(** The list that [update_index] hands to [writelines], from the one
    [readlines] gave it. *)
Definition patch_lines (link_line : string) (lines : list string) : list string :=
  match find_idx (Str.contains section_marker) lines with
  | Some start_idx =>
      let insert_idx :=
        match find_idx_from start_idx (Str.contains "<ul") lines with
        | Some j => j + 1
        | None => start_idx + 1
        end in
      insert_at insert_idx link_line lines
  | None =>
      let insert_idx :=
        default (length lines) (find_idx (Str.contains "</main>") lines) in
      splice_at insert_idx (section_html link_line) lines
  end.

Definition update_index (article_filename article_title : string) : M unit :=
  found <~ Fs.path_exists INDEX_FILE ;;
  if negb found then ret tt
  else
    text <~ Fs.read_text INDEX_FILE ;;
    let lines := Str.readlines text in
    Fs.write_text INDEX_FILE
      (Str.cat (patch_lines (article_link article_filename article_title) lines)).

Definition safe_title (t : string) : string :=
  Str.take 50 (Str.join "-" (Str.split (Str.lower t))).

Definition article_filename (d : date) (t : string) : string :=
  isoformat d +:+ "-" +:+ safe_title t +:+ ".html".

Definition empty_feed_message : string :=
  "Aucun article n'a " +:+ Str.e_acute +:+ "t" +:+ Str.e_acute +:+ " trouv"
  +:+ Str.e_acute +:+ " dans le flux RSS.".

Section Program.

(** The substitution of character references that [html.unescape]
    applies to a string with an ampersand. *)
Variable charref_sub : string -> string.

Definition unescape (s : string) : string :=
  if Str.contains "&" s then charref_sub s else s.

Definition fetch_latest_entry (ev : env) : option article_data :=
  match entries (feedparser_parse ev FEED_URL) with
  | [] => None
  | e :: _ =>
      Some {| title := unescape (entry_get e "title" "Article sans titre");
              link := entry_get e "link" EmptyString;
              description := unescape (entry_get e "description" EmptyString);
              published := entry_get e "published" (utcnow_isoformat ev) |}
  end.

Definition main (ev : env) : M unit :=
  match fetch_latest_entry ev with
  | None => Fs.print empty_feed_message
  | Some article =>
      let filename := article_filename (today ev) (title article) in
      let article_path := PosixPath.join NEWS_DIR filename in
      generate_article_html article article_path ;;;
      update_index filename (title article) ;;;
      Fs.print ("Article ajout" +:+ Str.e_acute +:+ " : " +:+ filename)
  end.

End Program.

(** ** Notions used in the statements *)

(** [j] is the first index from [from] on whose element satisfies [p]. *)
Definition first_at {A} (p : A -> bool) (from : nat) (l : list A) (j : nat) : Prop :=
  from <= j
  /\ (exists x, l !! j = Some x /\ p x = true)
  /\ (forall k y, from <= k -> k < j -> l !! k = Some y -> p y = false).

(** No element from index [from] on satisfies [p]. *)
Definition none_from {A} (p : A -> bool) (from : nat) (l : list A) : Prop :=
  forall k y, from <= k -> l !! k = Some y -> p y = false.


Fixpoint last_char (s : string) : option ascii :=
  match s with
  | EmptyString => None
  | String c rest =>
      match last_char rest with
      | None => Some c
      | Some c' => Some c'
      end
  end.

(** The text is empty or its last line has its line feed. *)
Definition lf_closed (s : string) : bool :=
  match last_char s with
  | None => true
  | Some c => bool_decide (c = "010"%char)
  end.

(** Some character of [s] is whitespace. *)
Fixpoint has_space (s : string) : bool :=
  match s with
  | EmptyString => false
  | String c rest => Str.isspace c || has_space rest
  end.

(** Every character of [s] is whitespace. *)
Fixpoint all_space (s : string) : bool :=
  match s with
  | EmptyString => true
  | String c rest => Str.isspace c && all_space rest
  end.

(** The number of elements of [l] equal to [x]. *)
Definition count_line (x : string) (l : list string) : nat :=
  length (filter (fun y => y = x) l).

(** A line as [readlines] gives it when the text ends with a line feed:
    characters other than a line feed and a carriage return, then a line
    feed. *)
Fixpoint is_line (s : string) : bool :=
  match s with
  | EmptyString => false
  | String c rest =>
      match rest with
      | EmptyString => bool_decide (c = "010"%char)
      | _ => negb (bool_decide (c = "010"%char)) && negb (bool_decide (c = "013"%char))
             && is_line rest
      end
  end.

(** What a call that only makes directories does to the world: the files
    and the text printed stay, no directory is removed. *)
Definition grows (w w' : world) : Prop :=
  files w' = files w /\ stdout w' = stdout w /\ dirs w ⊆ dirs w'.

(** ** Sample runs *)

Module Sample.

Definition no_sub (s : string) : string := s.

Definition a_date : date := Date 2026 11 3.
Definition a_clock : string := "2026-11-03T06:00:00".

Definition no_entries : env := Env (fun _ => Feed []) a_clock a_date.

Definition full_entry : entry :=
  {[ "title" := "Le Sahel en 2026";
     "link" := "https://example.org/sahel";
     "description" := "Un point de situation.";
     "published" := "Mon, 02 Nov 2026 08:00:00 +0000" ]}.
Definition bare_entry : entry := {[ "description" := "Sans titre ni lien." ]}.
Definition untitled_entry : entry :=
  {[ "title" := EmptyString; "link" := "https://example.org/x" ]}.
Definition slash_entry : entry :=
  {[ "title" := "Russie/Ukraine : le point"; "link" := "https://example.org/ru-ua" ]}.

Definition feed_of (e : entry) : env := Env (fun _ => Feed [e]) a_clock a_date.

(** The article that [fetch_latest_entry] makes of [full_entry], its file
    name and its path on [a_date]. *)
Definition full_article : article_data :=
  Article "Le Sahel en 2026" "https://example.org/sahel" "Un point de situation."
    "Mon, 02 Nov 2026 08:00:00 +0000".
Definition full_name : string := "2026-11-03-le-sahel-en-2026.html".
Definition full_path : string := "news/2026-11-03-le-sahel-en-2026.html".

Definition empty_world : world := World ∅ ∅ [].

(** A directory where [index.html] is a directory. *)
Definition index_dir_world : world := World ∅ {[ INDEX_FILE ]} [].
Definition with_index (text : string) : world := World {[ INDEX_FILE := text ]} ∅ [].

(** An index with the section and its list. *)
Definition index_with_list : string :=
  Str.cat [ "<main>"; Str.nl;
            "  "; section_marker; ">"; Str.nl;
            "    <ul>"; Str.nl;
            "    </ul>"; Str.nl;
            "  </section>"; Str.nl;
            "</main>"; Str.nl ].

(** An index whose section has no list yet. *)
Definition index_without_list : string :=
  Str.cat [ section_marker; ">"; Str.nl; "</section>"; Str.nl ].

(** An index without the section, with a [main] element. *)
Definition index_with_main : string :=
  Str.cat [ "<main>"; Str.nl; "<p>Bonjour</p>"; Str.nl; "</main>"; Str.nl ].

(** An index without the section and without a [main] element, its only
    line not ended by a line feed. *)
Definition index_unterminated : string := "<p>Bonjour</p>".

End Sample.

(** * Properties *)

(** ** Strings *)

#[local] Arguments String.append !_ _ / : simpl nomatch.

Section StrFacts.

Lemma str_app_nil_r (s : string) : s +:+ EmptyString = s.
Proof. induction s as [|c s IH]; [reflexivity|]. cbn. by rewrite IH. Qed.

Lemma str_app_assoc (a b c : string) : (a +:+ b) +:+ c = a +:+ b +:+ c.
Proof. induction a as [|x a IH]; [reflexivity|]. cbn. by rewrite IH. Qed.

Lemma str_length_app (a b : string) :
  String.length (a +:+ b) = String.length a + String.length b.
Proof. induction a as [|x a IH]; [reflexivity|]. cbn. by rewrite IH. Qed.

Lemma cat_cons (x : string) (l : list string) : Str.cat (x :: l) = x +:+ Str.cat l.
Proof. destruct l; unfold Str.cat; cbn; [by rewrite str_app_nil_r | reflexivity]. Qed.

Lemma cat_app (l k : list string) : Str.cat (l ++ k) = Str.cat l +:+ Str.cat k.
Proof.
  induction l as [|x l IH]; [reflexivity|].
  rewrite <- app_comm_cons, !cat_cons, IH. by rewrite str_app_assoc.
Qed.

Lemma prefix_app (a b : string) : String.prefix a (a +:+ b) = true.
Proof.
  induction a as [|x a IH]; [by destruct b|].
  cbn. destruct (ascii_dec x x); [exact IH | contradiction].
Qed.

Lemma contains_prefix (x h : string) :
  String.prefix x h = true -> Str.contains x h = true.
Proof. intros H. destruct h; cbn [Str.contains]; by rewrite H. Qed.

Lemma contains_here (x b : string) : Str.contains x (x +:+ b) = true.
Proof. apply contains_prefix, prefix_app. Qed.

Lemma contains_app_r (x a b : string) :
  Str.contains x b = true -> Str.contains x (a +:+ b) = true.
Proof.
  intros H. induction a as [|c a IH]; [exact H|].
  cbn. rewrite IH. apply orb_true_r.
Qed.

Lemma contains_cat_elem (x : string) (l : list string) :
  x ∈ l -> Str.contains x (Str.cat l) = true.
Proof.
  induction 1 as [x l | x y l _ IH]; rewrite cat_cons.
  - apply contains_here.
  - by apply contains_app_r.
Qed.

Lemma has_char_app (c : ascii) (a b : string) :
  Str.has_char c (a +:+ b) = Str.has_char c a || Str.has_char c b.
Proof.
  induction a as [|x a IH]; [reflexivity|].
  cbn. rewrite IH. apply orb_assoc.
Qed.

Lemma str_length_take (n : nat) (s : string) : String.length (Str.take n s) <= n.
Proof.
  revert s. induction n as [|n IH]; intros [|c s]; cbn; try lia.
  specialize (IH s). lia.
Qed.

End StrFacts.

(** ** The feed fetcher *)

Section Fetch.

Variable charref_sub : string -> string.

Lemma entry_get_Some (e : entry) (key dflt v : string) :
  e !! key = Some v -> entry_get e key dflt = v.
Proof. unfold entry_get. by intros ->. Qed.

Lemma entry_get_None (e : entry) (key dflt : string) :
  e !! key = None -> entry_get e key dflt = dflt.
Proof. unfold entry_get. by intros ->. Qed.

Lemma unescape_plain (s : string) :
  Str.contains "&" s = false -> unescape charref_sub s = s.
Proof. unfold unescape. by intros ->. Qed.

(** C1: when the feed has no entry, [fetch_latest_entry] gives [None] and
    [main] only prints its message and returns: no file is written, the
    index and the directories are as before. *)
Theorem main_empty_feed (ev : env) (w : world) :
  entries (feedparser_parse ev FEED_URL) = [] ->
  fetch_latest_entry charref_sub ev = None
  /\ main charref_sub ev w
     = (Ok tt, World (files w) (dirs w) (stdout w ++ [empty_feed_message])).
Proof.
  intros H. unfold main, fetch_latest_entry. rewrite H. by split.
Qed.

(** C2: when the feed has an entry, [fetch_latest_entry] gives the fields
    of the first one: its title and description, each unescaped, its link
    and its publication time; a missing link is the empty string and a
    missing publication time is the current UTC time. *)
Theorem fetch_latest_entry_first (ev : env) (e : entry) (rest : list entry) :
  entries (feedparser_parse ev FEED_URL) = e :: rest ->
  exists a,
    fetch_latest_entry charref_sub ev = Some a
    /\ (forall t, e !! "title" = Some t -> title a = unescape charref_sub t)
    /\ (forall d, e !! "description" = Some d -> description a = unescape charref_sub d)
    /\ (forall l, e !! "link" = Some l -> link a = l)
    /\ (e !! "link" = None -> link a = EmptyString)
    /\ (forall p, e !! "published" = Some p -> published a = p)
    /\ (e !! "published" = None -> published a = utcnow_isoformat ev).
Proof.
  intros H. unfold fetch_latest_entry. rewrite H.
  eexists; split; [reflexivity|]. cbn [title description link published].
  repeat split; intros;
    first [ by erewrite entry_get_Some | by rewrite entry_get_None ].
Qed.

(** C3, as the code has it: a title that the entry lacks is replaced by
    the default, which is not empty; a title that the entry has is
    returned unescaped as it is, so that an empty one stays empty. *)
Theorem fetch_latest_entry_title (ev : env) (e : entry) (rest : list entry)
    (a : article_data) :
  entries (feedparser_parse ev FEED_URL) = e :: rest ->
  fetch_latest_entry charref_sub ev = Some a ->
  (e !! "title" = None ->
     title a = "Article sans titre" /\ title a <> EmptyString)
  /\ (forall t, e !! "title" = Some t -> title a = unescape charref_sub t)
  /\ (forall t, e !! "title" = Some t -> Str.contains "&" t = false ->
        (title a = EmptyString <-> t = EmptyString)).
Proof.
  intros H. unfold fetch_latest_entry. rewrite H. intros [= <-]. cbn [title].
  split; [|split].
  - intros Ht. rewrite (entry_get_None _ _ _ Ht).
    rewrite unescape_plain by reflexivity. by split.
  - intros t Ht. by rewrite (entry_get_Some _ _ _ _ Ht).
  - intros t Ht Hamp. rewrite (entry_get_Some _ _ _ _ Ht).
    by rewrite unescape_plain.
Qed.

End Fetch.

(** C1 on a run: the feed is empty and the index is there. *)
Lemma main_empty_feed_witness :
  fetch_latest_entry Sample.no_sub Sample.no_entries = None
  /\ main Sample.no_sub Sample.no_entries (Sample.with_index Sample.index_with_list)
     = (Ok tt, World {[ INDEX_FILE := Sample.index_with_list ]} ∅ [empty_feed_message]).
Proof.
  apply (main_empty_feed Sample.no_sub Sample.no_entries
           (Sample.with_index Sample.index_with_list)).
  reflexivity.
Defined.

(** C2 on a feed whose entry has all four fields, followed by another. *)
Lemma fetch_latest_entry_first_witness :
  exists a,
    fetch_latest_entry Sample.no_sub
      (Env (fun _ => Feed [Sample.full_entry; Sample.bare_entry]) Sample.a_clock Sample.a_date)
    = Some a
    /\ (forall t, Sample.full_entry !! "title" = Some t -> title a = unescape Sample.no_sub t)
    /\ (forall d, Sample.full_entry !! "description" = Some d ->
          description a = unescape Sample.no_sub d)
    /\ (forall l, Sample.full_entry !! "link" = Some l -> link a = l)
    /\ (Sample.full_entry !! "link" = None -> link a = EmptyString)
    /\ (forall p, Sample.full_entry !! "published" = Some p -> published a = p)
    /\ (Sample.full_entry !! "published" = None -> published a = Sample.a_clock).
Proof.
  apply (fetch_latest_entry_first Sample.no_sub
           (Env (fun _ => Feed [Sample.full_entry; Sample.bare_entry])
                Sample.a_clock Sample.a_date)
           Sample.full_entry [Sample.bare_entry]).
  reflexivity.
Defined.

(** C3, the claim as the specification words it, fails: an entry with an
    empty title gives an article with an empty title. *)
Lemma fetch_latest_entry_empty_title :
  title <$> fetch_latest_entry Sample.no_sub (Sample.feed_of Sample.untitled_entry)
  = Some EmptyString
  /\ ~ (forall sub ev a, fetch_latest_entry sub ev = Some a -> title a <> EmptyString).
Proof.
  split; [by vm_compute|].
  intros H.
  by apply (H Sample.no_sub (Sample.feed_of Sample.untitled_entry) _ eq_refl).
Qed.

(** C3 on an entry without a title. *)
Lemma fetch_latest_entry_title_witness :
  (Sample.bare_entry !! "title" = None ->
     title (Article "Article sans titre" EmptyString "Sans titre ni lien." Sample.a_clock)
     = "Article sans titre"
     /\ title (Article "Article sans titre" EmptyString "Sans titre ni lien." Sample.a_clock)
        <> EmptyString)
  /\ (forall t, Sample.bare_entry !! "title" = Some t ->
        title (Article "Article sans titre" EmptyString "Sans titre ni lien." Sample.a_clock)
        = unescape Sample.no_sub t)
  /\ (forall t, Sample.bare_entry !! "title" = Some t -> Str.contains "&" t = false ->
        (title (Article "Article sans titre" EmptyString "Sans titre ni lien." Sample.a_clock)
         = EmptyString <-> t = EmptyString)).
Proof.
  apply (fetch_latest_entry_title Sample.no_sub (Sample.feed_of Sample.bare_entry)
           Sample.bare_entry []).
  - reflexivity.
  - by vm_compute.
Defined.

(** ** Paths of the article pages *)

Section Paths.

Lemma digit_not_slash (n : nat) : Str.digit n <> "/"%char.
Proof.
  unfold Str.digit.
  assert (n mod 10 < 10) as Hlt by (apply Nat.mod_upper_bound; lia).
  remember (n mod 10) as k eqn:Ek. clear Ek.
  do 10 (destruct k as [|k]; [by vm_compute|]). lia.
Qed.

Lemma has_char_d2 (n : nat) : Str.has_char "/" (Str.d2 n) = false.
Proof.
  unfold Str.d2. cbn [Str.has_char].
  rewrite !bool_decide_eq_false_2; [reflexivity | apply digit_not_slash ..].
Qed.

Lemma has_char_isoformat (d : date) : Str.has_char "/" (isoformat d) = false.
Proof.
  unfold isoformat, Str.d4. rewrite !has_char_app.
  cbn [Str.has_char]. rewrite !has_char_d2.
  rewrite !(bool_decide_eq_false_2 (Str.digit _ = _));
    [reflexivity | apply digit_not_slash ..].
Qed.

Lemma has_char_article_filename (d : date) (t : string) :
  Str.has_char "/" (safe_title t) = false ->
  Str.has_char "/" (article_filename d t) = false.
Proof.
  intros H. unfold article_filename.
  by rewrite !has_char_app, has_char_isoformat, H.
Qed.

Lemma startswith_slash_cons (c : ascii) (s : string) :
  c <> "/"%char -> PosixPath.startswith_slash (String c s) = false.
Proof.
  destruct c as [[] [] [] [] [] [] [] []]; intros H; try reflexivity.
  by destruct H.
Qed.

Lemma startswith_slash_article_filename (d : date) (t : string) :
  PosixPath.startswith_slash (article_filename d t) = false.
Proof. apply startswith_slash_cons, digit_not_slash. Qed.

Lemma join_news (name : string) :
  PosixPath.startswith_slash name = false ->
  PosixPath.join NEWS_DIR name = "news/" +:+ name.
Proof. unfold PosixPath.join. by intros ->. Qed.

Lemma head_part_no_slash (s : string) :
  Str.has_char "/" s = false -> PosixPath.head_part s = EmptyString.
Proof. destruct s; [done|]. cbn [PosixPath.head_part]. by intros ->. Qed.

Lemma dirname_news (name : string) :
  Str.has_char "/" name = false -> PosixPath.dirname ("news/" +:+ name) = "news".
Proof.
  intros H. unfold PosixPath.dirname.
  assert (PosixPath.head_part ("news/" +:+ name) = "news/") as ->; [|done].
  cbn. by rewrite (head_part_no_slash _ H).
Qed.

Lemma endswith_slash_html (s : string) :
  PosixPath.endswith_slash (s +:+ ".html") = false.
Proof.
  induction s as [|c s IH]; [done|].
  cbn [String.append PosixPath.endswith_slash].
  destruct (s +:+ ".html") eqn:E; [|exact IH].
  by destruct s.
Qed.

Lemma lower_char_slash (c : ascii) :
  bool_decide (Str.lower_char c = "/"%char) = bool_decide (c = "/"%char).
Proof. destruct c as [[] [] [] [] [] [] [] []]; by vm_compute. Qed.

Lemma has_char_lower (s : string) :
  Str.has_char "/" (Str.lower s) = Str.has_char "/" s.
Proof.
  induction s as [|c s IH]; [done|].
  cbn [Str.lower Str.has_char]. by rewrite lower_char_slash, IH.
Qed.

Lemma has_char_take (c : ascii) (n : nat) (s : string) :
  Str.has_char c s = false -> Str.has_char c (Str.take n s) = false.
Proof.
  revert s. induction n as [|n IH]; intros [|x s]; cbn [Str.take Str.has_char]; try done.
  intros [-> H]%orb_false_iff. by rewrite (IH s H).
Qed.

Lemma has_char_cons_word (c : ascii) (w : string) (ws : list string) :
  Str.has_char c w = false ->
  Forall (fun x => Str.has_char c x = false) ws ->
  Forall (fun x => Str.has_char c x = false) (Str.cons_word w ws).
Proof. intros Hw Hws. destruct w; [done|]. by constructor. Qed.

Lemma has_char_split (c : ascii) (s : string) :
  Str.has_char c s = false ->
  Forall (fun x => Str.has_char c x = false) (Str.split s).
Proof.
  intros H. unfold Str.split.
  assert (Str.has_char c (Str.split_go s).1 = false
          /\ Forall (fun x => Str.has_char c x = false) (Str.split_go s).2) as Hgo.
  { induction s as [|x s IH]; [by split|].
    cbn [Str.split_go Str.has_char] in *.
    apply orb_false_iff in H as [Hx Hs].
    destruct (Str.split_go s) as [w ws]. destruct (IH Hs) as [Hw Hws].
    cbn [fst snd] in Hw, Hws.
    destruct (Str.isspace x); cbn [fst snd Str.has_char].
    - split; [done|]. by apply has_char_cons_word.
    - split; [by rewrite Hx, Hw | done]. }
  destruct (Str.split_go s) as [w ws]. destruct Hgo as [Hw Hws].
  by apply has_char_cons_word.
Qed.

Lemma has_char_join (c : ascii) (sep : string) (ws : list string) :
  Str.has_char c sep = false ->
  Forall (fun x => Str.has_char c x = false) ws ->
  Str.has_char c (Str.join sep ws) = false.
Proof.
  intros Hsep. induction 1 as [|x ws Hx Hws IH]; [done|].
  destruct ws as [|y ws]; [done|].
  change (Str.join sep (x :: y :: ws)) with (x +:+ sep +:+ Str.join sep (y :: ws)).
  by rewrite !has_char_app, Hx, Hsep, IH.
Qed.

(** A title without a slash gives a hyphenated title without a slash. *)
Lemma has_char_safe_title (t : string) :
  Str.has_char "/" t = false -> Str.has_char "/" (safe_title t) = false.
Proof.
  intros H. unfold safe_title.
  apply has_char_take, has_char_join; [done|].
  apply has_char_split. by rewrite has_char_lower.
Qed.

(** The path of the page of an article whose hyphenated title has no
    slash: a file name in the news directory. *)
Lemma article_path_in_news_dir (d : date) (t : string) :
  Str.has_char "/" (safe_title t) = false ->
  PosixPath.join NEWS_DIR (article_filename d t)
    = "news/" +:+ isoformat d +:+ "-" +:+ safe_title t +:+ ".html"
  /\ PosixPath.dirname (PosixPath.join NEWS_DIR (article_filename d t)) = NEWS_DIR
  /\ String.length (safe_title t) <= 50.
Proof.
  intros H. rewrite join_news by apply startswith_slash_article_filename.
  split; [done|]. split; [|apply str_length_take].
  by apply dirname_news, has_char_article_filename.
Qed.

End Paths.

(** ** The names of a path *)

Section Components.

Implicit Types (p s : string) (c : ascii).

Lemma components_cons c (r : string) :
  PosixPath.components (String c r)
  = if bool_decide (c = "/"%char) then EmptyString :: PosixPath.components r
    else match PosixPath.components r with
         | x :: xs => String c x :: xs
         | [] => [String c EmptyString]
         end.
Proof. reflexivity. Qed.

Lemma components_slash (r : string) :
  PosixPath.components (String "/" r) = EmptyString :: PosixPath.components r.
Proof. cbn [PosixPath.components]. by rewrite bool_decide_eq_true_2. Qed.

Lemma components_nonempty p : PosixPath.components p <> [].
Proof.
  destruct p as [|c r]; [done|]. cbn [PosixPath.components].
  case_bool_decide; [done|]. by destruct (PosixPath.components r).
Qed.

Lemma components_no_slash s :
  Str.has_char "/" s = false -> PosixPath.components s = [s].
Proof.
  induction s as [|c s IH]; [done|].
  cbn [Str.has_char PosixPath.components]. intros [Hc Hs]%orb_false_iff.
  by rewrite Hc, (IH Hs).
Qed.

Lemma components_app_slash (a b : string) :
  Str.has_char "/" a = false ->
  PosixPath.components (a +:+ String "/" b) = a :: PosixPath.components b.
Proof.
  induction a as [|c a IH].
  - intros _. apply components_slash.
  - cbn [Str.has_char]. intros [Hc Ha]%orb_false_iff.
    cbn [String.append PosixPath.components]. by rewrite Hc, (IH Ha).
Qed.

Lemma components_news (name : string) :
  Str.has_char "/" name = false ->
  PosixPath.components ("news/" +:+ name) = [NEWS_DIR; name].
Proof.
  intros H. change ("news/" +:+ name) with ("news" +:+ String "/" name).
  rewrite components_app_slash by reflexivity. by rewrite components_no_slash.
Qed.

(** A path with a slash: its components but the last one are those of
    its head part, which ends with the slash. *)
Lemma components_head_part p :
  Str.has_char "/" p = true ->
  exists x init last,
    PosixPath.components p = x :: init ++ [last]
    /\ PosixPath.components (PosixPath.head_part p) = x :: init ++ [EmptyString].
Proof.
  induction p as [|c r IH]; [done|]. intros Hp.
  cbn [PosixPath.head_part]. rewrite Hp.
  destruct (Str.has_char "/" r) eqn:Hr.
  - destruct (IH eq_refl) as (x & init & last & E & E').
    cbn [PosixPath.components]. rewrite E, E'. case_bool_decide.
    + by exists EmptyString, (x :: init), last.
    + by exists (String c x), init, last.
  - cbn [Str.has_char] in Hp. rewrite Hr, orb_false_r in Hp.
    apply bool_decide_eq_true in Hp as ->.
    rewrite (head_part_no_slash r Hr), components_slash, (components_no_slash r Hr).
    by exists EmptyString, [], r.
Qed.

Lemma head_part_nonempty p :
  Str.has_char "/" p = true -> PosixPath.head_part p <> EmptyString.
Proof. destruct p as [|c r]; [done|]. cbn [PosixPath.head_part]. by intros ->. Qed.

(** Stripping the slashes at the end only drops empty components. *)
Lemma components_rstrip_slash s :
  exists k,
    PosixPath.components s
    = PosixPath.components (PosixPath.rstrip_slash s) ++ replicate k EmptyString.
Proof.
  induction s as [|c r (k & IH)]; [by exists 0|].
  rewrite components_cons, IH. cbn [PosixPath.rstrip_slash].
  destruct (PosixPath.rstrip_slash r) as [|d r'] eqn:E.
  - cbn [PosixPath.components app]. case_bool_decide.
    + by exists (S k).
    + exists k. by rewrite components_cons, bool_decide_eq_false_2.
  - exists k. rewrite (components_cons c (String d r')).
    pose proof (components_nonempty (String d r')) as Hne.
    destruct (PosixPath.components (String d r')) as [|x xs]; [done|].
    by case_bool_decide.
Qed.

Lemma rstrip_slash_nonempty s :
  PosixPath.all_slashes s = false -> PosixPath.rstrip_slash s <> EmptyString.
Proof.
  induction s as [|c r IH]; [done|].
  cbn [PosixPath.all_slashes PosixPath.rstrip_slash].
  destruct (PosixPath.rstrip_slash r) eqn:E; [|done].
  case_bool_decide; [|done]. cbn [andb]. intros Hr. by destruct (IH Hr).
Qed.

Lemma names_app_empty (l : list string) (k : nat) :
  filter (fun x : string => x <> EmptyString) (l ++ replicate k EmptyString)
  = filter (fun x : string => x <> EmptyString) l.
Proof.
  rewrite filter_app. induction k as [|k IH]; [by rewrite app_nil_r|].
  cbn [replicate]. by rewrite filter_cons_False by (by intros H; apply H).
Qed.

Lemma names_rstrip_slash s :
  PosixPath.names (PosixPath.rstrip_slash s) = PosixPath.names s.
Proof.
  unfold PosixPath.names. destruct (components_rstrip_slash s) as (k & ->).
  by rewrite names_app_empty.
Qed.

(** The names of the directory part of a path with a slash. *)
Lemma names_dirname p (l : list string) (last : string) :
  Str.has_char "/" p = true ->
  PosixPath.components p = l ++ [last] ->
  PosixPath.names (PosixPath.dirname p) = filter (fun x : string => x <> EmptyString) l.
Proof.
  intros Hp El. destruct (components_head_part p Hp) as (x & init & last' & E & E').
  assert (l = x :: init) as ->.
  { rewrite E in El. rewrite app_comm_cons in El. by apply app_inj_tail in El as [-> _]. }
  assert (PosixPath.names (PosixPath.head_part p)
          = filter (fun x : string => x <> EmptyString) (x :: init)) as Eh.
  { unfold PosixPath.names. rewrite E'. rewrite app_comm_cons.
    apply (names_app_empty (x :: init) 1). }
  unfold PosixPath.dirname.
  destruct (negb _ && negb _); [by rewrite names_rstrip_slash | done].
Qed.

Lemma dirname_nonempty p :
  Str.has_char "/" p = true -> PosixPath.dirname p <> EmptyString.
Proof.
  intros Hp. pose proof (head_part_nonempty p Hp) as Hh. unfold PosixPath.dirname.
  rewrite (bool_decide_eq_false_2 _ Hh). cbn [negb andb].
  destruct (PosixPath.all_slashes (PosixPath.head_part p)) eqn:E; [done|].
  by apply rstrip_slash_nonempty.
Qed.

Lemma components_not_empty (c : ascii) (r : string) :
  PosixPath.components (String c r) <> [EmptyString].
Proof.
  cbn [PosixPath.components]. pose proof (components_nonempty r) as Hne.
  destruct (PosixPath.components r) as [|x xs]; [done|]. by case_bool_decide.
Qed.

(** A path that ends with a slash has an empty last component. *)
Lemma components_endswith_slash p :
  PosixPath.endswith_slash p = true ->
  exists l, PosixPath.components p = l ++ [EmptyString].
Proof.
  induction p as [|c r IH]; [done|]. destruct r as [|c' r'].
  - cbn [PosixPath.endswith_slash]. intros ->%bool_decide_eq_true.
    by exists [EmptyString].
  - intros H. destruct (IH H) as (l & E).
    rewrite (components_cons c (String c' r')), E.
    case_bool_decide.
    + by exists (EmptyString :: l).
    + destruct l as [|x l].
      * exfalso. by apply (components_not_empty c' r').
      * by exists (String c x :: l).
Qed.

Lemma has_nul_components p :
  Fs.has_nul p = false ->
  Forall (fun x => Fs.has_nul x = false) (PosixPath.components p).
Proof.
  unfold Fs.has_nul. induction p as [|c r IH]; [by repeat constructor|].
  cbn [Str.has_char]. intros [Hc Hr]%orb_false_iff. specialize (IH Hr).
  apply bool_decide_eq_false in Hc.
  rewrite components_cons. case_bool_decide.
  - by constructor.
  - destruct (PosixPath.components r) as [|x xs].
    + constructor; [|done]. cbn [Str.has_char]. by rewrite bool_decide_eq_false_2.
    + inversion IH as [|? ? Hx Hxs]; subst. constructor; [|done].
      cbn [Str.has_char]. by rewrite bool_decide_eq_false_2.
Qed.

End Components.

(** ** The look-up of a path *)

Section Lookup.

Implicit Types (c : string) (cs cur loc : list string) (w : world).

Lemma existsb_none {A} (f : A -> bool) (l : list A) :
  (forall x, x ∈ l -> f x = false) -> existsb f l = false.
Proof.
  induction l as [|x l IH]; [done|]. intros H. cbn [existsb].
  rewrite (H x) by apply list_elem_of_here.
  apply IH. intros y Hy. apply H. by apply list_elem_of_further.
Qed.

(** A name of a file or a directory: not empty, not [.] and not [..]. *)
Lemma step_name c cur w :
  c <> EmptyString -> c <> "." -> c <> ".." ->
  Fs.step c cur w
  = if Fs.is_dir (Fs.key (cur ++ [c])) w then Ok (cur ++ [c])
    else if Fs.is_file (Fs.key (cur ++ [c])) w then Raise NotADirectoryError
    else Raise FileNotFoundError.
Proof.
  intros H1 H2 H3. unfold Fs.step.
  by rewrite !bool_decide_eq_false_2.
Qed.

Lemma final_name c cur :
  c <> EmptyString -> c <> "." -> c <> ".." -> Fs.final c cur = Fs.Entry (cur ++ [c]).
Proof. intros H1 H2 H3. unfold Fs.final. by rewrite !bool_decide_eq_false_2. Qed.

Lemma step_empty cur w : Fs.step EmptyString cur w = Ok cur.
Proof. reflexivity. Qed.

(** The step that leads on also gives the place of the last component. *)
Lemma step_final c cur cur' w :
  Fs.step c cur w = Ok cur' ->
  Fs.target_is_dir (Fs.final c cur) w = true.
Proof.
  unfold Fs.step, Fs.final.
  destruct (bool_decide (c = EmptyString) || bool_decide (c = ".")); [done|].
  destruct (bool_decide (c = "..")); [done|].
  cbn [Fs.target_is_dir]. destruct (Fs.is_dir _ w); [done|].
  by destruct (Fs.is_file _ w).
Qed.

(** A step that leads on still does when directories are added. *)
Lemma step_more c cur cur' w w' :
  dirs w ⊆ dirs w' -> Fs.step c cur w = Ok cur' -> Fs.step c cur w' = Ok cur'.
Proof.
  intros Hsub. unfold Fs.step.
  destruct (bool_decide (c = EmptyString) || bool_decide (c = ".")); [done|].
  destruct (bool_decide (c = "..")); [done|].
  unfold Fs.is_dir. case_bool_decide as Hd.
  - rewrite bool_decide_eq_true_2; [done|]. by apply Hsub.
  - by destruct (Fs.is_file _ w).
Qed.

Lemma walk_more cs cur cur' w w' :
  dirs w ⊆ dirs w' -> Fs.walk cs cur w = Ok cur' -> Fs.walk cs cur w' = Ok cur'.
Proof.
  intros Hsub. revert cur. induction cs as [|c cs IH]; intros cur; [done|].
  cbn [Fs.walk]. destruct (Fs.step c cur w) as [x|e] eqn:E; [|done].
  rewrite (step_more _ _ _ _ _ Hsub E). apply IH.
Qed.

Lemma walk_app cs cs' cur w :
  Fs.walk (cs ++ cs') cur w
  = match Fs.walk cs cur w with
    | Ok cur' => Fs.walk cs' cur' w
    | Raise e => Raise e
    end.
Proof.
  revert cur. induction cs as [|c cs IH]; intros cur; [done|].
  cbn [app Fs.walk]. by destruct (Fs.step c cur w).
Qed.

Lemma locate_snoc cs c cur w :
  Fs.locate (cs ++ [c]) cur w
  = match Fs.walk cs cur w with
    | Ok cur' => Ok (Fs.final c cur')
    | Raise e => Raise e
    end.
Proof.
  revert cur. induction cs as [|c0 cs IH]; intros cur; [done|].
  cbn [app Fs.walk Fs.locate].
  destruct (cs ++ [c]) as [|c1 rest] eqn:E; [by destruct cs|].
  destruct (Fs.step c0 cur w) as [x|e]; [|done].
  apply IH.
Qed.

Lemma locate_more cs cur loc w w' :
  dirs w ⊆ dirs w' ->
  Fs.locate cs cur w = Ok (Fs.Entry loc) -> Fs.locate cs cur w' = Ok (Fs.Entry loc).
Proof.
  intros Hsub. destruct cs as [|c cs _] using rev_ind; [done|].
  rewrite !locate_snoc. destruct (Fs.walk cs cur w) as [x|e] eqn:E; [|done].
  by rewrite (walk_more _ _ _ _ _ Hsub E).
Qed.

(** The empty components of a path lead nowhere. *)
Lemma walk_names cs cur w :
  Fs.walk (filter (fun x : string => x <> EmptyString) cs) cur w = Fs.walk cs cur w.
Proof.
  revert cur. induction cs as [|c cs IH]; intros cur; [done|].
  rewrite filter_cons. case_decide as Hc.
  - cbn [Fs.walk]. destruct (Fs.step c cur w); [apply IH | done].
  - subst c. cbn [Fs.walk]. rewrite step_empty. apply IH.
Qed.

(** Names that can be followed lead to a directory. *)
Lemma walk_locate cs cur cur' w :
  cs <> [] ->
  Fs.walk cs cur w = Ok cur' ->
  exists t, Fs.locate cs cur w = Ok t /\ Fs.target_is_dir t w = true.
Proof.
  destruct cs as [|c cs _] using rev_ind; [done|]. intros _.
  rewrite walk_app, locate_snoc.
  destruct (Fs.walk cs cur w) as [x|e]; [|done].
  cbn [Fs.walk]. destruct (Fs.step c x w) as [y|e] eqn:E; [|done]. intros _.
  eexists. split; [reflexivity|]. by apply (step_final _ _ _ _ E).
Qed.

Lemma target_is_dir_exists (t : Fs.target) w :
  Fs.target_is_dir t w = true -> Fs.target_exists t w = true.
Proof. destruct t; [done|]. cbn. intros ->. apply orb_true_r. Qed.

End Lookup.

(** ** The effects, one call at a time *)

Section Effects.

Implicit Types (p text : string) (ns rn : list string) (w : world).

Lemma grows_refl w : grows w w.
Proof. by repeat split. Qed.

Lemma grows_trans w w1 w2 : grows w w1 -> grows w1 w2 -> grows w w2.
Proof.
  intros (F1 & O1 & D1) (F2 & O2 & D2). repeat split.
  - by rewrite F2.
  - by rewrite O2.
  - by transitivity (dirs w1).
Qed.


Lemma mkdir_names_grows ns w : grows w (Fs.mkdir_names ns w).2.
Proof.
  unfold Fs.mkdir_names.
  destruct (existsb Fs.has_nul ns); [apply grows_refl|].
  destruct (Fs.locate ns [] w) as [[loc|loc]|e]; try apply grows_refl.
  destruct (_ || _); [apply grows_refl|].
  repeat split. cbn [snd dirs]. apply union_subseteq_l.
Qed.

Lemma mkdir_exist_ok_grows ns w : grows w (Fs.mkdir_exist_ok ns w).2.
Proof.
  unfold Fs.mkdir_exist_ok. pose proof (mkdir_names_grows ns w) as H.
  destruct (Fs.mkdir_names ns w) as [[[]|e] w1]; [exact H|].
  destruct e; try (destruct (Fs.isdir_names ns w)); apply grows_refl.
Qed.

Lemma makedirs_rev_grows rn w : grows w (Fs.makedirs_rev rn w).2.
Proof.
  revert w. induction rn as [|tail rhead IH]; intros w; [apply grows_refl|].
  cbn [Fs.makedirs_rev].
  destruct (negb _ && negb _); [|apply mkdir_exist_ok_grows].
  specialize (IH w).
  destruct (Fs.makedirs_rev rhead w) as [[[]|e] w1]; cbn [snd] in IH.
  - destruct (bool_decide (tail = ".")); [exact IH|].
    eapply grows_trans; [exact IH | apply mkdir_exist_ok_grows].
  - destruct e; try exact IH.
    destruct (bool_decide (tail = ".")); [exact IH|].
    eapply grows_trans; [exact IH | apply mkdir_exist_ok_grows].
Qed.

Lemma makedirs_grows p w : grows w (Fs.makedirs p w).2.
Proof.
  unfold Fs.makedirs. destruct (bool_decide (p = EmptyString)); [apply grows_refl|].
  apply makedirs_rev_grows.
Qed.

(** When the names can be followed, the directory is there and nothing
    is made. *)
Lemma mkdir_exist_ok_there ns cur w :
  ns <> [] ->
  Forall (fun x => Fs.has_nul x = false) ns ->
  Fs.walk ns [] w = Ok cur ->
  Fs.mkdir_exist_ok ns w = (Ok tt, w).
Proof.
  intros Hne Hnul Hwalk.
  destruct (walk_locate ns [] cur w Hne Hwalk) as (t & Et & Hdir).
  assert (existsb Fs.has_nul ns = false) as Enul.
  { apply existsb_none. intros x Hx. by apply (proj1 (Forall_forall _ _) Hnul). }
  assert (Fs.isdir_names ns w = true) as Edir.
  { unfold Fs.isdir_names. by rewrite Enul, Et. }
  unfold Fs.mkdir_exist_ok, Fs.mkdir_names. rewrite Enul, Et.
  destruct t as [loc|loc]; [by rewrite Edir|].
  cbn [Fs.target_is_dir] in Hdir. rewrite Hdir, orb_true_r. by rewrite Edir.
Qed.

Lemma makedirs_rev_there rn cur w :
  Forall (fun x => Fs.has_nul x = false) rn ->
  Fs.walk (rev rn) [] w = Ok cur ->
  Fs.makedirs_rev rn w = (Ok tt, w).
Proof.
  intros Hnul Hwalk. destruct rn as [|tail rhead]; [done|].
  cbn [Fs.makedirs_rev].
  assert (negb (bool_decide (rhead = [])) && negb (Fs.exists_names (rev rhead) w) = false)
    as ->.
  { destruct rhead as [|c rhead']; [done|].
    rewrite (bool_decide_eq_false_2 (c :: rhead' = [])) by done. cbn [negb andb].
    apply negb_false_iff.
    cbn [rev] in Hwalk. rewrite walk_app in Hwalk.
    destruct (Fs.walk (rev rhead' ++ [c]) [] w) as [x|e] eqn:E; [|done].
    assert (rev rhead' ++ [c] <> []) as Hne by (by destruct (rev rhead')).
    destruct (walk_locate _ _ _ _ Hne E) as (t & Et & Hdir).
    unfold Fs.exists_names. cbn [rev]. rewrite existsb_none.
    - rewrite Et. by apply target_is_dir_exists.
    - assert (Forall (fun x => Fs.has_nul x = false) (rev (c :: rhead'))) as Hnul'
        by (apply Forall_rev; by inversion Hnul).
      intros y Hy. by apply (proj1 (Forall_forall _ _) Hnul'). }
  apply (mkdir_exist_ok_there _ cur); [| |done].
  - cbn [rev]. by destruct (rev rhead).
  - by apply Forall_rev.
Qed.

Lemma makedirs_there p cur w :
  p <> EmptyString ->
  Forall (fun x => Fs.has_nul x = false) (PosixPath.names p) ->
  Fs.walk (PosixPath.names p) [] w = Ok cur ->
  Fs.makedirs p w = (Ok tt, w).
Proof.
  intros Hp Hnul Hwalk. unfold Fs.makedirs.
  rewrite (bool_decide_eq_false_2 _ Hp).
  apply (makedirs_rev_there _ cur); [by apply Forall_rev | by rewrite rev_involutive].
Qed.

(** The ways [open(p, "w")] ends. *)
Lemma write_text_Ok p text w w' :
  Fs.write_text p text w = (Ok tt, w') ->
  exists loc,
    Fs.resolve p w = Ok (Fs.Entry loc)
    /\ Fs.is_dir (Fs.key loc) w = false
    /\ w' = World (<[Fs.key loc := text]> (files w)) (dirs w) (stdout w).
Proof.
  unfold Fs.write_text, Fs.resolve.
  destruct (Fs.has_nul p); [done|].
  destruct (bool_decide (p = EmptyString)); [done|].
  destruct (PosixPath.endswith_slash p).
  { by destruct (Fs.locate (PosixPath.names p) [] w). }
  destruct (Fs.locate (PosixPath.components p) [] w) as [[loc|loc]|e]; try done.
  destruct (Fs.is_dir (Fs.key loc) w) eqn:E; [done|].
  intros [= <-]. by exists loc.
Qed.

Lemma write_text_Raise p text e w w' :
  Fs.write_text p text w = (Raise e, w') -> w' = w.
Proof.
  unfold Fs.write_text.
  repeat (case_match; try done); by intros [= _ <-].
Qed.

Lemma write_text_entry p text loc w :
  Fs.resolve p w = Ok (Fs.Entry loc) ->
  Fs.is_dir (Fs.key loc) w = false ->
  Fs.write_text p text w
  = (Ok tt, World (<[Fs.key loc := text]> (files w)) (dirs w) (stdout w)).
Proof.
  unfold Fs.write_text, Fs.resolve.
  destruct (Fs.has_nul p); [done|].
  destruct (bool_decide (p = EmptyString)); [done|].
  intros Hloc Hdir.
  destruct (PosixPath.endswith_slash p) eqn:Eslash.
  { destruct (components_endswith_slash p Eslash) as (l & El).
    rewrite El, locate_snoc in Hloc. by destruct (Fs.walk l [] w). }
  by rewrite Hloc, Hdir.
Qed.

(** The directory of a path that leads to an entry is there. *)
Lemma makedirs_dirname p loc w :
  Str.has_char "/" p = true ->
  Fs.resolve p w = Ok (Fs.Entry loc) ->
  Fs.makedirs (PosixPath.dirname p) w = (Ok tt, w).
Proof.
  intros Hslash. unfold Fs.resolve.
  destruct (Fs.has_nul p) eqn:Hnul; [done|].
  destruct (bool_decide (p = EmptyString)); [done|].
  destruct (components_head_part p Hslash) as (x & init & last & E & _).
  rewrite app_comm_cons in E. rewrite E, locate_snoc.
  destruct (Fs.walk (x :: init) [] w) as [cur|e] eqn:Ewalk; [|done]. intros _.
  apply (makedirs_there _ cur).
  - by apply dirname_nonempty.
  - rewrite (names_dirname p _ _ Hslash E).
    pose proof (has_nul_components p Hnul) as H. rewrite E in H.
    apply Forall_app in H as [H _].
    apply Forall_forall. intros y [_ Hy]%list_elem_of_filter.
    by apply (proj1 (Forall_forall _ _) H).
  - by rewrite (names_dirname p _ _ Hslash E), walk_names.
Qed.

(** A page whose directory is there. *)
Lemma generate_article_html_in_dir (a : article_data) p loc w :
  Str.has_char "/" p = true ->
  Fs.resolve p w = Ok (Fs.Entry loc) ->
  Fs.is_dir (Fs.key loc) w = false ->
  generate_article_html a p w
  = (Ok tt, World (<[Fs.key loc := article_html a]> (files w)) (dirs w) (stdout w)).
Proof.
  intros Hslash Hloc Hdir. unfold generate_article_html, bind.
  rewrite (makedirs_dirname p loc w Hslash Hloc).
  by apply write_text_entry.
Qed.

Lemma resolve_more p loc w w' :
  dirs w ⊆ dirs w' ->
  Fs.resolve p w = Ok (Fs.Entry loc) -> Fs.resolve p w' = Ok (Fs.Entry loc).
Proof.
  intros Hsub. unfold Fs.resolve.
  destruct (Fs.has_nul p); [done|]. destruct (bool_decide (p = EmptyString)); [done|].
  by apply locate_more.
Qed.

(** A call that returns. *)
Lemma generate_article_html_Ok (a : article_data) p w w' :
  generate_article_html a p w = (Ok tt, w') ->
  exists loc,
    Str.has_char "/" p = true
    /\ Fs.resolve p w' = Ok (Fs.Entry loc)
    /\ Fs.is_dir (Fs.key loc) w' = false
    /\ w' = World (<[Fs.key loc := article_html a]> (files w)) (dirs w') (stdout w)
    /\ dirs w ⊆ dirs w'.
Proof.
  unfold generate_article_html, bind. intros H.
  pose proof (makedirs_grows (PosixPath.dirname p) w) as (Hf & Ho & Hd).
  destruct (Fs.makedirs (PosixPath.dirname p) w) as [[[]|e] w1] eqn:E1; [|done].
  cbn [snd] in Hf, Ho, Hd.
  apply write_text_Ok in H as (loc & Hloc & Hdir & ->). cbn [dirs].
  exists loc. split.
  { destruct (Str.has_char "/" p) eqn:Hs; [done|].
    unfold Fs.makedirs, PosixPath.dirname in E1.
    by rewrite (head_part_no_slash p Hs) in E1. }
  split; [by apply (resolve_more p loc w1)|].
  split; [done|]. split; [by rewrite Hf, Ho | done].
Qed.

(** A call that raises. *)
Lemma generate_article_html_Raise (a : article_data) p e w w' :
  generate_article_html a p w = (Raise e, w') -> grows w w'.
Proof.
  unfold generate_article_html, bind. intros H.
  pose proof (makedirs_grows (PosixPath.dirname p) w) as Hg.
  destruct (Fs.makedirs (PosixPath.dirname p) w) as [[[]|e'] w1] eqn:E1; cbn [snd] in Hg.
  - by apply write_text_Raise in H as ->.
  - by injection H as _ <-.
Qed.

End Effects.

(** ** The news directory and the index, at the top of the tree *)

Section Top.

Implicit Types (name text : string) (w : world).

Lemma digit_not_nul (n : nat) : Str.digit n <> "000"%char.
Proof.
  unfold Str.digit.
  assert (n mod 10 < 10) as Hlt by (apply Nat.mod_upper_bound; lia).
  remember (n mod 10) as k eqn:Ek. clear Ek.
  do 10 (destruct k as [|k]; [by vm_compute|]). lia.
Qed.

Lemma has_nul_isoformat (d : date) : Str.has_char "000" (isoformat d) = false.
Proof.
  unfold isoformat, Str.d4, Str.d2. rewrite !has_char_app.
  cbn [Str.has_char].
  rewrite !(bool_decide_eq_false_2 (Str.digit _ = _));
    [reflexivity | apply digit_not_nul ..].
Qed.

Lemma has_nul_article_filename (d : date) (t : string) :
  Str.has_char "000" (safe_title t) = false ->
  Fs.has_nul (article_filename d t) = false.
Proof.
  intros H. unfold Fs.has_nul, article_filename.
  by rewrite !has_char_app, has_nul_isoformat, H.
Qed.

(** The name of a page is a name: not empty, not [.] and not [..]. *)
Lemma article_filename_name (d : date) (t : string) :
  article_filename d t <> EmptyString
  /\ article_filename d t <> "."
  /\ article_filename d t <> "..".
Proof.
  unfold article_filename, isoformat, Str.d4, Str.d2. cbn [String.append].
  repeat split; discriminate.
Qed.

Lemma is_dir_union (p q : string) (w : world) (fs : gmap string string) (out : list string) :
  Fs.is_dir p (World fs (dirs w ∪ {[ q ]}) out) = Fs.is_dir p w || bool_decide (p = q).
Proof.
  unfold Fs.is_dir. cbn [dirs].
  rewrite <- bool_decide_or. apply bool_decide_ext.
  by rewrite elem_of_union, elem_of_singleton.
Qed.

(** [os.makedirs] on one name at the top of the tree. *)
Lemma mkdir_exist_ok_top name w :
  name <> EmptyString -> name <> "." -> name <> ".." ->
  Fs.has_nul name = false ->
  Fs.mkdir_exist_ok [name] w
  = if Fs.is_dir name w then (Ok tt, w)
    else if Fs.is_file name w then (Raise FileExistsError, w)
    else (Ok tt, World (files w) (dirs w ∪ {[ name ]}) (stdout w)).
Proof.
  intros H1 H2 H3 Hnul.
  unfold Fs.mkdir_exist_ok, Fs.mkdir_names, Fs.isdir_names.
  cbn [existsb Fs.locate]. rewrite Hnul. cbn [orb].
  rewrite final_name by done. cbn [app Fs.target_is_dir].
  change (Fs.key [name]) with name.
  by destruct (Fs.is_file name w), (Fs.is_dir name w).
Qed.

Lemma makedirs_top name w :
  Str.has_char "/" name = false ->
  name <> EmptyString ->
  Fs.makedirs name w = Fs.mkdir_exist_ok [name] w.
Proof.
  intros Hslash Hne. unfold Fs.makedirs, PosixPath.names.
  rewrite (bool_decide_eq_false_2 _ Hne), (components_no_slash name Hslash).
  rewrite filter_cons_True by done. reflexivity.
Qed.

Lemma makedirs_news w :
  Fs.is_file NEWS_DIR w = false ->
  Fs.makedirs NEWS_DIR w = (Ok tt, World (files w) (dirs w ∪ {[ NEWS_DIR ]}) (stdout w)).
Proof.
  intros Hfile. rewrite makedirs_top, mkdir_exist_ok_top by done.
  rewrite Hfile. destruct (Fs.is_dir NEWS_DIR w) eqn:Hdir; [|done].
  f_equal. destruct w as [fs ds out]. cbn [files dirs stdout]. f_equal.
  unfold Fs.is_dir in Hdir. cbn [dirs] in Hdir. apply bool_decide_eq_true in Hdir.
  symmetry. rewrite union_comm_L. apply subseteq_union_1_L.
  by apply singleton_subseteq_l.
Qed.

Lemma makedirs_news_file w :
  Fs.is_file NEWS_DIR w = true -> Fs.is_dir NEWS_DIR w = false ->
  Fs.makedirs NEWS_DIR w = (Raise FileExistsError, w).
Proof.
  intros Hfile Hdir. rewrite makedirs_top, mkdir_exist_ok_top by done.
  by rewrite Hfile, Hdir.
Qed.

(** A name in the news directory, when the directory is there. *)
Lemma resolve_news name w :
  Str.has_char "/" name = false ->
  Fs.has_nul name = false ->
  name <> EmptyString -> name <> "." -> name <> ".." ->
  Fs.is_dir NEWS_DIR w = true ->
  Fs.resolve ("news/" +:+ name) w = Ok (Fs.Entry [NEWS_DIR; name]).
Proof.
  intros Hslash Hnul H1 H2 H3 Hdir. unfold Fs.resolve.
  assert (Fs.has_nul ("news/" +:+ name) = false) as ->.
  { unfold Fs.has_nul in *. by rewrite has_char_app, Hnul. }
  rewrite bool_decide_eq_false_2 by done.
  rewrite (components_news name Hslash). cbn [Fs.locate].
  rewrite step_name by done. cbn [app]. change (Fs.key [NEWS_DIR]) with NEWS_DIR.
  rewrite Hdir. by rewrite final_name.
Qed.

Lemma key_news name : Fs.key [NEWS_DIR; name] = "news/" +:+ name.
Proof. reflexivity. Qed.

Lemma resolve_index w : Fs.resolve INDEX_FILE w = Ok (Fs.Entry [INDEX_FILE]).
Proof. reflexivity. Qed.

End Top.

(** ** The page renderer *)

Section Page.

Lemma prefix_nil (s : string) : String.prefix EmptyString s = true.
Proof. by destruct s. Qed.

Lemma prefix_cons (c : ascii) (x s : string) :
  String.prefix x s = true -> String.prefix (String c x) (String c s) = true.
Proof. intros H. cbn. destruct (ascii_dec c c); [exact H | contradiction]. Qed.

Lemma prefix_app_same (v x s : string) :
  String.prefix x s = true -> String.prefix (v +:+ x) (v +:+ s) = true.
Proof.
  intros H. induction v as [|c v IH]; [exact H|].
  cbn [String.append]. by apply prefix_cons.
Qed.

Lemma prefix_cons_app (c : ascii) (x p rest : string) :
  String.prefix x (p +:+ rest) = true ->
  String.prefix (String c x) (String c p +:+ rest) = true.
Proof. apply prefix_cons. Qed.

Lemma prefix_empty_app (x rest : string) :
  String.prefix x rest = true -> String.prefix x (EmptyString +:+ rest) = true.
Proof. done. Qed.

Lemma contains_skip_char (x : string) (c : ascii) (p rest : string) :
  Str.contains x (p +:+ rest) = true -> Str.contains x (String c p +:+ rest) = true.
Proof. intros H. cbn [String.append Str.contains]. rewrite H. apply orb_true_r. Qed.

End Page.

(** The text [x], made of literals and fields, is found in a page: the
    pieces of the page are passed one by one, then the characters of the
    piece in which [x] starts. *)
Ltac prefix_here :=
  repeat match goal with
    | |- String.prefix EmptyString _ = true => apply prefix_nil
    | |- String.prefix (String ?c ?x) (String ?c ?p +:+ ?rest) = true =>
        apply (prefix_cons_app c x p rest)
    | |- String.prefix ?x (EmptyString +:+ ?rest) = true =>
        apply (prefix_empty_app x rest)
    | |- String.prefix (?v +:+ ?x) (?v +:+ ?s) = true =>
        apply (prefix_app_same v x s)
    end.
Ltac scan_piece :=
  first [ solve [ apply contains_prefix; prefix_here ]
        | match goal with
          | |- Str.contains ?x (String ?c ?p +:+ ?rest) = true =>
              apply (contains_skip_char x c p rest); scan_piece
          end ].
Ltac find_text :=
  first [ solve [ scan_piece ]
        | match goal with
          | |- Str.contains ?x (?p +:+ ?rest) = true =>
              apply (contains_app_r x p rest); find_text
          end ].
Ltac in_page :=
  unfold article_html; rewrite !cat_cons;
  match goal with
  | |- Str.contains ?x _ = true =>
      let x' := eval cbn [String.append] in x in change x with x'
  end;
  find_text.

(** C10: the page that [generate_article_html] writes holds the title,
    the publication time, the description and the link of the article as
    they are, each between the tags of the template: the title in the
    [title] and in the [h1] element, the publication time after the words
    of the template, the description in its paragraph, the link as the
    [href] of the source.  A call that returns has written this page at the
    place to which the path leads; and a call on a path with a slash that
    leads to an entry of a directory that is there, the entry not being a
    directory, returns. *)
Theorem generate_article_html_verbatim (a : article_data) (file_path : string)
    (w : world) :
  (Str.contains ("<title>" +:+ title a +:+ "</title>") (article_html a) = true
   /\ Str.contains ("<h1>" +:+ title a +:+ "</h1>") (article_html a) = true
   /\ Str.contains ("<p><em>Publi" +:+ Str.e_acute +:+ " le " +:+ published a +:+ "</em></p>")
        (article_html a) = true
   /\ Str.contains ("<p>" +:+ description a +:+ "</p>") (article_html a) = true
   /\ Str.contains ("<a href=" +:+ Str.dq +:+ link a +:+ Str.dq +:+ ">source</a>")
        (article_html a) = true)
  /\ (forall w',
        generate_article_html a file_path w = (Ok tt, w') ->
        exists loc,
          Fs.resolve file_path w' = Ok (Fs.Entry loc)
          /\ files w' !! Fs.key loc = Some (article_html a))
  /\ (forall loc,
        Str.has_char "/" file_path = true ->
        Fs.resolve file_path w = Ok (Fs.Entry loc) ->
        Fs.is_dir (Fs.key loc) w = false ->
        generate_article_html a file_path w
        = (Ok tt, World (<[Fs.key loc := article_html a]> (files w)) (dirs w) (stdout w))).
Proof.
  split; [|split].
  - repeat split; in_page.
  - intros w' H. apply generate_article_html_Ok in H as (loc & _ & Hloc & _ & E & _).
    exists loc. split; [exact Hloc|].
    apply (f_equal files) in E. cbn [files] in E. rewrite E. apply lookup_insert_eq.
  - intros loc. apply generate_article_html_in_dir.
Qed.

(** C10 on a page written in a news directory that is there: the markup
    and the ampersands of the fields are in the page as they came. *)
Lemma generate_article_html_verbatim_witness :
  generate_article_html
    (Article "Le <Sahel> & nous" "https://example.org/?a=1&b=2"
       "Un <b>point</b>." "Mon, 02 Nov 2026 08:00:00 +0000")
    "news/2026-11-03-le-sahel.html" (World ∅ {[ NEWS_DIR ]} [])
  = (Ok tt,
     World {[ "news/2026-11-03-le-sahel.html" :=
                article_html
                  (Article "Le <Sahel> & nous" "https://example.org/?a=1&b=2"
                     "Un <b>point</b>." "Mon, 02 Nov 2026 08:00:00 +0000") ]}
           {[ NEWS_DIR ]} [])
  /\ Str.contains "<title>Le <Sahel> & nous</title>"
       (article_html
          (Article "Le <Sahel> & nous" "https://example.org/?a=1&b=2"
             "Un <b>point</b>." "Mon, 02 Nov 2026 08:00:00 +0000")) = true
  /\ Str.contains "<h1>Le <Sahel> & nous</h1>"
       (article_html
          (Article "Le <Sahel> & nous" "https://example.org/?a=1&b=2"
             "Un <b>point</b>." "Mon, 02 Nov 2026 08:00:00 +0000")) = true
  /\ Str.contains ("<p><em>Publi" +:+ Str.e_acute +:+ " le Mon, 02 Nov 2026 08:00:00 +0000</em></p>")
       (article_html
          (Article "Le <Sahel> & nous" "https://example.org/?a=1&b=2"
             "Un <b>point</b>." "Mon, 02 Nov 2026 08:00:00 +0000")) = true
  /\ Str.contains "<p>Un <b>point</b>.</p>"
       (article_html
          (Article "Le <Sahel> & nous" "https://example.org/?a=1&b=2"
             "Un <b>point</b>." "Mon, 02 Nov 2026 08:00:00 +0000")) = true
  /\ Str.contains ("<a href=" +:+ Str.dq +:+ "https://example.org/?a=1&b=2" +:+ Str.dq
                   +:+ ">source</a>")
       (article_html
          (Article "Le <Sahel> & nous" "https://example.org/?a=1&b=2"
             "Un <b>point</b>." "Mon, 02 Nov 2026 08:00:00 +0000")) = true.
Proof.
  destruct (generate_article_html_verbatim
              (Article "Le <Sahel> & nous" "https://example.org/?a=1&b=2"
                 "Un <b>point</b>." "Mon, 02 Nov 2026 08:00:00 +0000")
              "news/2026-11-03-le-sahel.html" (World ∅ {[ NEWS_DIR ]} []))
    as (Htext & _ & Hrun).
  split; [|exact Htext].
  apply (Hrun [NEWS_DIR; "2026-11-03-le-sahel.html"]); reflexivity.
Defined.

(** ** Searching the lines *)

Section Search.

Context {A : Type}.
Implicit Types (p : A -> bool) (l : list A).

Lemma find_idx_first p l j : find_idx p l = Some j -> first_at p 0 l j.
Proof.
  revert j. induction l as [|x l IH]; intros j; cbn; [done|].
  destruct (p x) eqn:Hx.
  - intros [= <-]. split; [lia|]. split; [by exists x|]. intros; lia.
  - destruct (find_idx p l) as [j'|] eqn:E; cbn; [|done]. intros [= <-].
    destruct (IH j' eq_refl) as (_ & (y & Hy & Hpy) & Hlt).
    split; [lia|]. split; [by exists y|].
    intros [|k] z _ Hk; cbn; [by intros [= <-]|].
    intros Hz. apply (Hlt k z); [lia|lia|done].
Qed.

Lemma first_find_idx p l j : first_at p 0 l j -> find_idx p l = Some j.
Proof.
  revert j. induction l as [|x l IH]; intros j (_ & (y & Hy & Hpy) & Hlt).
  - done.
  - cbn. destruct (p x) eqn:Hx.
    + destruct j as [|j]; [done|].
      rewrite (Hlt 0 x) in Hx; [done|lia|lia|done].
    + destruct j as [|j]; [cbn in Hy; congruence|].
      rewrite (IH j); [done|]. split; [lia|]. split; [by exists y|].
      intros k z _ Hk Hz. apply (Hlt (S k) z); [lia|lia|done].
Qed.

Lemma find_idx_none p l : find_idx p l = None -> none_from p 0 l.
Proof.
  induction l as [|x l IH]; cbn; [by intros _ k y _|].
  destruct (p x) eqn:Hx; [done|].
  destruct (find_idx p l) eqn:E; cbn; [done|].
  intros _ [|k] y _; cbn; [by intros [= <-]|].
  intros Hk. apply (IH eq_refl k y); [lia|done].
Qed.

Lemma none_find_idx p l : none_from p 0 l -> find_idx p l = None.
Proof.
  induction l as [|x l IH]; [done|]. intros H. cbn.
  rewrite (H 0 x); [|lia|done]. rewrite IH; [done|].
  intros k y _ Hk. apply (H (S k) y); [lia|done].
Qed.

Lemma find_idx_from_first p i l j : find_idx_from i p l = Some j -> first_at p i l j.
Proof.
  unfold find_idx_from.
  destruct (find_idx p (drop i l)) as [j'|] eqn:E; cbn; [|done]. intros [= <-].
  destruct (find_idx_first _ _ _ E) as (_ & (y & Hy & Hpy) & Hlt).
  rewrite lookup_drop in Hy.
  split; [lia|]. split; [by exists y|].
  intros k z Hik Hk Hz. apply (Hlt (k - i) z); [lia|lia|].
  rewrite lookup_drop. by replace (i + (k - i)) with k by lia.
Qed.

Lemma first_find_idx_from p i l j : first_at p i l j -> find_idx_from i p l = Some j.
Proof.
  intros (Hij & (y & Hy & Hpy) & Hlt). unfold find_idx_from.
  rewrite (first_find_idx p (drop i l) (j - i)); [cbn; f_equal; lia|].
  split; [lia|]. split.
  - exists y. rewrite lookup_drop. by replace (i + (j - i)) with j by lia.
  - intros k z _ Hk. rewrite lookup_drop. intros Hz.
    apply (Hlt (i + k) z); [lia|lia|done].
Qed.

Lemma find_idx_from_none p i l : find_idx_from i p l = None -> none_from p i l.
Proof.
  unfold find_idx_from.
  destruct (find_idx p (drop i l)) eqn:E; cbn; [done|]. intros _ k y Hik Hk.
  apply (find_idx_none _ _ E (k - i) y); [lia|].
  rewrite lookup_drop. by replace (i + (k - i)) with k by lia.
Qed.

Lemma none_find_idx_from p i l : none_from p i l -> find_idx_from i p l = None.
Proof.
  intros H. unfold find_idx_from. rewrite none_find_idx; [done|].
  intros k y _. rewrite lookup_drop. intros Hk. apply (H (i + k) y); [lia|done].
Qed.

(** A first match stays the first match in any list that agrees with
    [l] up to it. *)
Lemma first_at_agree p from l l' j :
  first_at p from l j ->
  (forall k, k <= j -> l' !! k = l !! k) ->
  first_at p from l' j.
Proof.
  intros (Hij & (y & Hy & Hpy) & Hlt) Hsame.
  split; [done|]. split.
  - exists y. by rewrite Hsame.
  - intros k z Hk Hkj. rewrite Hsame by lia. by apply Hlt.
Qed.

Lemma first_at_lt p from l j : first_at p from l j -> j < length l.
Proof. intros (_ & (y & Hy & _) & _). by eapply lookup_lt_Some. Qed.

Lemma lookup_inserted_before l (xs : list A) j k :
  j < length l -> k <= j -> (take (S j) l ++ xs) !! k = l !! k.
Proof.
  intros Hj Hk. rewrite lookup_app_l by (rewrite length_take; lia).
  apply lookup_take_lt. lia.
Qed.

End Search.

(** ** The lines that [update_index] writes *)

Section Patch.

Implicit Types (lines : list string) (link_line : string).

Lemma patch_lines_after_ul link_line lines i j :
  first_at (Str.contains section_marker) 0 lines i ->
  first_at (Str.contains "<ul") i lines j ->
  patch_lines link_line lines = take (S j) lines ++ link_line :: drop (S j) lines.
Proof.
  intros Hi Hj. unfold patch_lines.
  rewrite (first_find_idx _ _ _ Hi), (first_find_idx_from _ _ _ _ Hj).
  unfold insert_at. by replace (j + 1) with (S j) by lia.
Qed.

Lemma patch_lines_after_section link_line lines i :
  first_at (Str.contains section_marker) 0 lines i ->
  none_from (Str.contains "<ul") i lines ->
  patch_lines link_line lines = take (S i) lines ++ link_line :: drop (S i) lines.
Proof.
  intros Hi Hno. unfold patch_lines.
  rewrite (first_find_idx _ _ _ Hi), (none_find_idx_from _ _ _ Hno).
  unfold insert_at. by replace (i + 1) with (S i) by lia.
Qed.

Lemma patch_lines_before_main link_line lines k :
  none_from (Str.contains section_marker) 0 lines ->
  first_at (Str.contains "</main>") 0 lines k ->
  patch_lines link_line lines = take k lines ++ section_html link_line ++ drop k lines.
Proof.
  intros Hno Hk. unfold patch_lines.
  by rewrite (none_find_idx _ _ Hno), (first_find_idx _ _ _ Hk).
Qed.

Lemma patch_lines_at_end link_line lines :
  none_from (Str.contains section_marker) 0 lines ->
  none_from (Str.contains "</main>") 0 lines ->
  patch_lines link_line lines = lines ++ section_html link_line.
Proof.
  intros Hno Hno'. unfold patch_lines.
  rewrite (none_find_idx _ _ Hno), (none_find_idx _ _ Hno'). cbn [default from_option id].
  unfold splice_at. by rewrite take_ge, drop_ge, app_nil_r by lia.
Qed.

(** Whatever the lines are, the result is the list with one run of new
    lines put in at some index. *)
Lemma patch_lines_shape link_line lines :
  exists i new_lines,
    patch_lines link_line lines = take i lines ++ new_lines ++ drop i lines
    /\ (new_lines = [link_line] \/ new_lines = section_html link_line).
Proof.
  unfold patch_lines, insert_at, splice_at.
  destruct (find_idx (Str.contains section_marker) lines) as [i|].
  - destruct (find_idx_from i _ lines) as [j|];
      eexists _, [link_line]; (split; [reflexivity | by left]).
  - eexists _, (section_html link_line); split; [reflexivity | by right].
Qed.

(** Seen as a list, the lines handed to [writelines] keep every line
    that [readlines] gave, in order. *)
Lemma patch_lines_sublist link_line lines :
  lines `sublist_of` patch_lines link_line lines.
Proof.
  destruct (patch_lines_shape link_line lines) as (i & new_lines & -> & _).
  rewrite <- (take_drop i lines) at 1.
  apply sublist_app; [done|]. by apply sublist_inserts_l.
Qed.

(** With the section and its list in place, the link of a later update
    lands right before the link of an earlier one. *)
Lemma patch_lines_newest_first link_line link_line' lines i j :
  first_at (Str.contains section_marker) 0 lines i ->
  first_at (Str.contains "<ul") i lines j ->
  patch_lines link_line' (patch_lines link_line lines)
  = take (S j) lines ++ link_line' :: link_line :: drop (S j) lines.
Proof.
  intros Hi Hj.
  assert (i <= j) as Hij by apply Hj.
  pose proof (first_at_lt _ _ _ _ Hj) as Hlen.
  rewrite (patch_lines_after_ul link_line lines i j Hi Hj).
  rewrite (patch_lines_after_ul link_line' _ i j).
  - rewrite take_app_length', drop_app_length'; [done| |];
      rewrite length_take; lia.
  - eapply first_at_agree; [exact Hi|].
    intros k Hk. apply lookup_inserted_before; lia.
  - eapply first_at_agree; [exact Hj|].
    intros k Hk. by apply lookup_inserted_before.
Qed.

End Patch.

(** ** Reading and writing the index *)

Section IndexFile.

Lemma cat_splitlines (s : string) : Str.cat (Str.splitlines s) = s.
Proof.
  induction s as [|c rest IH]; [done|].
  cbn [Str.splitlines]. case_bool_decide.
  - rewrite cat_cons, IH. done.
  - destruct (Str.splitlines rest) as [|l ls].
    + cbn in IH. by subst rest.
    + rewrite cat_cons in *. cbn [String.append]. by rewrite IH.
Qed.

Lemma cat_readlines (text : string) :
  Str.cat (Str.readlines text) = Str.universal_newlines text.
Proof. apply cat_splitlines. Qed.





Lemma is_file_false (p : string) (w : world) :
  Fs.is_file p w = false <-> files w !! p = None.
Proof.
  unfold Fs.is_file. rewrite bool_decide_eq_false.
  by rewrite eq_None_not_Some.
Qed.

Lemma update_index_absent (fn t : string) (w : world) :
  Fs.is_file INDEX_FILE w = false -> Fs.is_dir INDEX_FILE w = false ->
  update_index fn t w = (Ok tt, w).
Proof.
  unfold update_index, bind, Fs.path_exists. rewrite resolve_index.
  cbn [Fs.target_exists]. change (Fs.key [INDEX_FILE]) with INDEX_FILE.
  intros -> ->. reflexivity.
Qed.

Lemma update_index_dir (fn t : string) (w : world) :
  Fs.is_dir INDEX_FILE w = true ->
  update_index fn t w = (Raise IsADirectoryError, w).
Proof.
  intros Hdir. unfold update_index, bind, Fs.path_exists. rewrite resolve_index.
  cbn [Fs.target_exists]. change (Fs.key [INDEX_FILE]) with INDEX_FILE.
  rewrite Hdir, orb_true_r. cbn [negb]. unfold Fs.read_text.
  rewrite resolve_index. change (Fs.key [INDEX_FILE]) with INDEX_FILE.
  rewrite Hdir. reflexivity.
Qed.

Lemma update_index_file (fn t : string) (w : world) (text : string) :
  Fs.is_dir INDEX_FILE w = false ->
  files w !! INDEX_FILE = Some text ->
  update_index fn t w
  = (Ok tt,
     World (<[INDEX_FILE :=
                Str.cat (patch_lines (article_link fn t) (Str.readlines text))]> (files w))
           (dirs w) (stdout w)).
Proof.
  intros Hdir Hfile.
  unfold update_index, bind, Fs.path_exists. rewrite resolve_index.
  cbn [Fs.target_exists]. change (Fs.key [INDEX_FILE]) with INDEX_FILE.
  assert (Fs.is_file INDEX_FILE w = true) as ->.
  { unfold Fs.is_file. apply bool_decide_eq_true. by rewrite Hfile. }
  cbn [orb negb]. unfold Fs.read_text.
  rewrite resolve_index. change (Fs.key [INDEX_FILE]) with INDEX_FILE.
  rewrite Hdir, Hfile.
  by rewrite (write_text_entry INDEX_FILE _ [INDEX_FILE] w (resolve_index w) Hdir).
Qed.

End IndexFile.

(** ** Reading the index again *)

Section Reread.

Abbreviation CR := "013"%char.
Abbreviation LF := "010"%char.

Implicit Types (fn t text : string) (lines : list string).

Lemma un_cons_other (c : ascii) (s : string) :
  c <> CR -> Str.universal_newlines (String c s) = String c (Str.universal_newlines s).
Proof. intros H. cbn [Str.universal_newlines]. by rewrite bool_decide_eq_false_2. Qed.

Lemma un_cr_lf (s : string) :
  Str.universal_newlines (String CR (String LF s)) = String LF (Str.universal_newlines s).
Proof. reflexivity. Qed.

Lemma un_cr_other (c : ascii) (s : string) :
  c <> LF ->
  Str.universal_newlines (String CR (String c s))
  = String LF (Str.universal_newlines (String c s)).
Proof.
  intros H. cbn [Str.universal_newlines].
  rewrite (bool_decide_eq_false_2 (c = LF)) by done.
  by rewrite bool_decide_eq_true_2.
Qed.

(** Induction along the cases of [universal_newlines]. *)
Lemma universal_newlines_ind (P : string -> Prop) :
  P EmptyString ->
  (forall c s, c <> CR -> P s -> P (String c s)) ->
  P (String CR EmptyString) ->
  (forall s, P s -> P (String CR (String LF s))) ->
  (forall c s, c <> LF -> P (String c s) -> P (String CR (String c s))) ->
  forall s, P s.
Proof.
  intros Hnil Hother Hcr Hcrlf Hcrother s.
  assert (forall n s, String.length s <= n -> P s) as H;
    [|by apply (H (String.length s))].
  clear s. induction n as [|n IH]; intros [|c rest] Hlen;
    cbn [String.length] in Hlen; try done; try lia.
  destruct (decide (c = CR)) as [->|Hc]; [|apply Hother; [done|apply IH; lia]].
  destruct rest as [|c' rest']; [done|]. cbn [String.length] in Hlen.
  destruct (decide (c' = LF)) as [->|Hc'].
  - apply Hcrlf, IH. lia.
  - apply Hcrother; [done|]. apply IH. cbn [String.length]. lia.
Qed.

Lemma has_char_universal_newlines (s : string) :
  Str.has_char CR (Str.universal_newlines s) = false.
Proof.
  induction s as [|c s Hc IH| |s IH|c s Hc IH] using universal_newlines_ind.
  - done.
  - rewrite un_cons_other by done. cbn [Str.has_char].
    by rewrite bool_decide_eq_false_2, IH.
  - done.
  - rewrite un_cr_lf. cbn [Str.has_char]. by rewrite IH.
  - rewrite un_cr_other by done. cbn [Str.has_char]. by rewrite IH.
Qed.

Lemma universal_newlines_id (s : string) :
  Str.has_char CR s = false -> Str.universal_newlines s = s.
Proof.
  induction s as [|c s IH]; [done|]. cbn [Str.has_char].
  intros [Hc Hs]%orb_false_iff. apply bool_decide_eq_false in Hc.
  by rewrite un_cons_other, IH.
Qed.

Lemma universal_newlines_app_l (a y : string) :
  Str.has_char CR a = false ->
  Str.universal_newlines (a +:+ y) = a +:+ Str.universal_newlines y.
Proof.
  induction a as [|c a IH]; [done|]. cbn [Str.has_char String.append].
  intros [Hc Ha]%orb_false_iff. apply bool_decide_eq_false in Hc.
  by rewrite un_cons_other, IH.
Qed.

Lemma last_char_app (a b : string) :
  last_char (a +:+ b)
  = match last_char b with
    | None => last_char a
    | Some c => Some c
    end.
Proof.
  induction a as [|x a IH]; cbn [String.append last_char].
  - by destruct (last_char b).
  - rewrite IH. by destruct (last_char b), (last_char a).
Qed.

Lemma last_char_app_r (a b : string) (c : ascii) :
  last_char b = Some c -> last_char (a +:+ b) = Some c.
Proof. intros H. by rewrite last_char_app, H. Qed.

Lemma last_char_universal_newlines (s : string) :
  last_char s = Some LF -> last_char (Str.universal_newlines s) = Some LF.
Proof.
  induction s as [|c s Hc IH| |s IH|c s Hc IH] using universal_newlines_ind.
  - done.
  - rewrite un_cons_other by done. cbn [last_char].
    destruct (last_char s) as [c'|] eqn:E.
    + intros [= ->]. by rewrite IH.
    + intros [= ->]. destruct s; [done|]. cbn [last_char] in E. by destruct (last_char s).
  - done.
  - rewrite un_cr_lf. cbn [last_char].
    destruct (last_char s) as [c'|] eqn:E.
    + intros [= ->]. by rewrite IH.
    + intros _. destruct s; [done|]. cbn [last_char] in E. by destruct (last_char s).
  - rewrite un_cr_other by done.
    change (last_char (String CR (String c s))) with
      (match last_char (String c s) with None => Some CR | Some c' => Some c' end).
    change (last_char (String LF (Str.universal_newlines (String c s)))) with
      (match last_char (Str.universal_newlines (String c s)) with
       | None => Some LF | Some c' => Some c' end).
    destruct (last_char (String c s)) as [c'|] eqn:E.
    + intros [= ->]. by rewrite IH.
    + cbn [last_char] in E. by destruct (last_char s).
Qed.

(** The translation of line ends goes through an append when the first
    text does not stop on a carriage return. *)
Lemma universal_newlines_app (a b : string) :
  last_char a <> Some CR ->
  Str.universal_newlines (a +:+ b) = Str.universal_newlines a +:+ Str.universal_newlines b.
Proof.
  induction a as [|c a Hc IH| |a IH|c a Hc IH] using universal_newlines_ind.
  - done.
  - intros Hlast. cbn [String.append]. rewrite !un_cons_other by done.
    cbn [String.append]. rewrite IH; [done|].
    intros E. apply Hlast. cbn [last_char]. by rewrite E.
  - intros Hlast. by destruct Hlast.
  - intros Hlast. cbn [String.append]. rewrite !un_cr_lf.
    cbn [String.append]. rewrite IH; [done|].
    intros E. apply Hlast. cbn [last_char]. by rewrite E.
  - intros Hlast.
    change (String CR (String c a) +:+ b) with (String CR (String c (a +:+ b))).
    rewrite !un_cr_other by done.
    change (String c (a +:+ b)) with (String c a +:+ b).
    rewrite IH; [done|].
    intros E. apply Hlast.
    change (last_char (String CR (String c a))) with
      (match last_char (String c a) with None => Some CR | Some c' => Some c' end).
    by rewrite E.
Qed.

Lemma splitlines_nonempty (c : ascii) (s : string) : Str.splitlines (String c s) <> [].
Proof.
  cbn [Str.splitlines]. case_bool_decide; [done|].
  by destruct (Str.splitlines s).
Qed.

Lemma lf_closed_tail (c : ascii) (s : string) :
  lf_closed (String c s) = true -> lf_closed s = true.
Proof.
  unfold lf_closed. cbn [last_char]. by destruct (last_char s).
Qed.

Lemma splitlines_app (a z : string) :
  lf_closed a = true ->
  Str.splitlines (a +:+ z) = Str.splitlines a ++ Str.splitlines z.
Proof.
  induction a as [|c a IH]; [done|]. intros Hclosed.
  pose proof (lf_closed_tail _ _ Hclosed) as Hclosed'.
  cbn [String.append Str.splitlines]. rewrite (IH Hclosed').
  case_bool_decide as Hc; [done|].
  destruct a as [|c' a].
  - unfold lf_closed in Hclosed. cbn in Hclosed.
    by apply bool_decide_eq_true in Hclosed.
  - pose proof (splitlines_nonempty c' a).
    by destruct (Str.splitlines (String c' a)).
Qed.

Lemma last_char_splitlines (s : string) :
  lf_closed s = true ->
  Forall (fun l => last_char l = Some LF) (Str.splitlines s).
Proof.
  induction s as [|c s IH]; [constructor|]. intros Hclosed.
  pose proof (lf_closed_tail _ _ Hclosed) as Hclosed'.
  cbn [Str.splitlines]. case_bool_decide as Hc.
  - subst c. constructor; [done|]. by apply IH.
  - destruct s as [|c' s].
    + unfold lf_closed in Hclosed. cbn in Hclosed.
      by apply bool_decide_eq_true in Hclosed.
    + pose proof (splitlines_nonempty c' s).
      specialize (IH Hclosed').
      destruct (Str.splitlines (String c' s)) as [|l ls]; [done|].
      inversion IH as [|? ? Hl Hls]; subst.
      constructor; [|done]. cbn [last_char]. by rewrite Hl.
Qed.

Lemma lf_closed_cat (ls : list string) :
  Forall (fun l => last_char l = Some LF) ls -> lf_closed (Str.cat ls) = true.
Proof.
  induction 1 as [|l ls Hl _ IH]; [done|].
  rewrite cat_cons. unfold lf_closed in *. rewrite last_char_app.
  destruct (last_char (Str.cat ls)); [done|].
  rewrite Hl. by apply bool_decide_eq_true.
Qed.

Lemma lf_closed_cat_take (s : string) (i : nat) :
  lf_closed s = true -> lf_closed (Str.cat (take i (Str.splitlines s))) = true.
Proof.
  intros Hclosed. by apply lf_closed_cat, Forall_take, last_char_splitlines.
Qed.

Lemma last_char_article_link (fn t : string) : last_char (article_link fn t) = Some LF.
Proof. unfold article_link. by repeat apply last_char_app_r. Qed.

Lemma last_char_section_html (link_line : string) :
  last_char (Str.cat (section_html link_line)) = Some LF.
Proof.
  unfold section_html. rewrite !cat_cons.
  change (Str.cat []) with EmptyString. rewrite str_app_nil_r.
  by repeat apply last_char_app_r.
Qed.

(** When the text read is empty or ends with a line feed, the lines of the
    text written hold every line read, in order. *)
Lemma update_index_keeps_lines (fn t text : string) :
  lf_closed (Str.universal_newlines text) = true ->
  Str.readlines text
    `sublist_of`
    Str.readlines (Str.cat (patch_lines (article_link fn t) (Str.readlines text))).
Proof.
  intros Hclosed.
  destruct (patch_lines_shape (article_link fn t) (Str.readlines text))
    as (i & new_lines & -> & Hnew).
  set (before := Str.cat (take i (Str.readlines text))).
  set (after := Str.cat (drop i (Str.readlines text))).
  set (new_text := Str.cat new_lines).
  assert (before +:+ after = Str.universal_newlines text) as Htext.
  { unfold before, after. by rewrite <- cat_app, take_drop, cat_readlines. }
  assert (Str.has_char CR before = false /\ Str.has_char CR after = false)
    as [Hbefore Hafter].
  { apply orb_false_iff. rewrite <- has_char_app, Htext.
    apply has_char_universal_newlines. }
  assert (last_char new_text = Some LF) as Hlast.
  { unfold new_text. destruct Hnew as [-> | ->].
    - rewrite cat_cons, str_app_nil_r. apply last_char_article_link.
    - apply last_char_section_html. }
  assert (lf_closed before = true) as Hbefore_closed
    by (by apply lf_closed_cat_take).
  rewrite !cat_app. fold before after new_text.
  unfold Str.readlines at 2.
  rewrite universal_newlines_app_l by done.
  rewrite universal_newlines_app by (by rewrite Hlast).
  rewrite (universal_newlines_id after) by done.
  rewrite splitlines_app by done.
  rewrite splitlines_app.
  2:{ unfold lf_closed. by rewrite last_char_universal_newlines. }
  unfold Str.readlines. rewrite <- Htext.
  rewrite splitlines_app by done.
  apply sublist_app; [done|]. by apply sublist_inserts_l.
Qed.

Lemma join_news_cases fn :
  PosixPath.join NEWS_DIR fn = fn \/ PosixPath.join NEWS_DIR fn = "news/" +:+ fn.
Proof.
  unfold PosixPath.join. destruct (PosixPath.startswith_slash fn); [by left | by right].
Qed.

Lemma has_char_join_news (c : ascii) fn :
  Str.has_char c "news/" = false ->
  Str.has_char c fn = false ->
  Str.has_char c (PosixPath.join NEWS_DIR fn) = false.
Proof.
  intros Hnews Hfn. destruct (join_news_cases fn) as [-> | ->]; [done|].
  by rewrite has_char_app, Hnews, Hfn.
Qed.

Lemma has_char_cr_article_link fn t :
  Str.has_char CR fn = false -> Str.has_char CR t = false ->
  Str.has_char CR (article_link fn t) = false.
Proof.
  intros Hfn Ht. unfold article_link.
  by rewrite !has_char_app, has_char_join_news, Ht.
Qed.

Lemma is_line_cons (c c' : ascii) (r : string) :
  is_line (String c (String c' r))
  = negb (bool_decide (c = LF)) && negb (bool_decide (c = CR)) && is_line (String c' r).
Proof. reflexivity. Qed.

Lemma is_line_no_cr (l : string) : is_line l = true -> Str.has_char CR l = false.
Proof.
  induction l as [|c r IH]; [done|]. destruct r as [|c' r].
  - cbn [is_line Str.has_char]. intros ->%bool_decide_eq_true. reflexivity.
  - rewrite is_line_cons. intros [[_ Hc]%andb_true_iff Hr]%andb_true_iff.
    cbn [Str.has_char] in *. rewrite (IH Hr).
    by destruct (bool_decide (c = CR)).
Qed.

Lemma splitlines_line (l z : string) :
  is_line l = true -> Str.splitlines (l +:+ z) = l :: Str.splitlines z.
Proof.
  induction l as [|c r IH]; [done|]. destruct r as [|c' r].
  - cbn [is_line]. intros ->%bool_decide_eq_true. reflexivity.
  - rewrite is_line_cons. intros [[Hc _]%andb_true_iff Hr]%andb_true_iff.
    change (String c (String c' r) +:+ z) with (String c (String c' r +:+ z)).
    cbn [Str.splitlines]. rewrite (IH Hr).
    by destruct (bool_decide (c = LF)).
Qed.

(** Lines written one after the other are read again as they are. *)
Lemma readlines_cat (ls : list string) :
  Forall (fun l => is_line l = true) ls -> Str.readlines (Str.cat ls) = ls.
Proof.
  intros Hls. unfold Str.readlines.
  assert (Str.has_char CR (Str.cat ls) = false) as Hcr.
  { induction Hls as [|l ls Hl _ IH]; [done|].
    by rewrite cat_cons, has_char_app, (is_line_no_cr l Hl), IH. }
  rewrite universal_newlines_id by done. clear Hcr.
  induction Hls as [|l ls Hl _ IH]; [done|].
  by rewrite cat_cons, splitlines_line, IH.
Qed.

Lemma is_line_splitlines (s : string) :
  Str.has_char CR s = false -> lf_closed s = true ->
  Forall (fun l => is_line l = true) (Str.splitlines s).
Proof.
  induction s as [|c rest IH]; [constructor|].
  cbn [Str.has_char]. intros [Hc Hcr]%orb_false_iff Hclosed.
  apply bool_decide_eq_false in Hc.
  pose proof (lf_closed_tail _ _ Hclosed) as Hclosed'.
  specialize (IH Hcr Hclosed').
  cbn [Str.splitlines]. case_bool_decide as Hlf.
  - subst c. by constructor.
  - destruct rest as [|c' r].
    + unfold lf_closed in Hclosed. cbn in Hclosed.
      by apply bool_decide_eq_true in Hclosed.
    + pose proof (splitlines_nonempty c' r).
      destruct (Str.splitlines (String c' r)) as [|l ls]; [done|].
      inversion IH as [|? ? Hl Hls]; subst.
      constructor; [|done]. destruct l as [|a l]; [done|].
      rewrite is_line_cons, Hl. by rewrite !bool_decide_eq_false_2.
Qed.

Lemma is_line_app (a b : string) :
  Str.has_char LF a = false -> Str.has_char CR a = false ->
  is_line b = true -> is_line (a +:+ b) = true.
Proof.
  intros Hlf Hcr Hb. induction a as [|c a IH]; [done|].
  cbn [Str.has_char] in Hlf, Hcr.
  apply orb_false_iff in Hlf as [Hc Hlf]. apply orb_false_iff in Hcr as [Hc' Hcr].
  specialize (IH Hlf Hcr). cbn [String.append].
  destruct (a +:+ b) as [|x r]; [done|].
  by rewrite is_line_cons, IH, Hc, Hc'.
Qed.

Lemma is_line_article_link fn t :
  Str.has_char LF fn = false -> Str.has_char CR fn = false ->
  Str.has_char LF t = false -> Str.has_char CR t = false ->
  is_line (article_link fn t) = true.
Proof.
  intros Hfn Hfn' Ht Ht'. unfold article_link.
  repeat (apply is_line_app; [try done; by apply has_char_join_news ..|]).
  reflexivity.
Qed.

Lemma is_line_patch_lines (link_line : string) lines :
  is_line link_line = true ->
  Forall (fun l => is_line l = true) lines ->
  Forall (fun l => is_line l = true) (patch_lines link_line lines).
Proof.
  intros Hlink Hlines.
  destruct (patch_lines_shape link_line lines) as (i & new_lines & -> & Hnew).
  apply Forall_app. split; [by apply Forall_take|].
  apply Forall_app. split; [|by apply Forall_drop].
  destruct Hnew as [-> | ->]; [by constructor|].
  unfold section_html. by repeat constructor.
Qed.

End Reread.

(** ** The index updater *)

(** C4, as the code has it: when the index has a line with the section
    marker, the new link line goes right after the first line, from the
    section line on, that contains [<ul], and right after the section line
    when there is no such line.  In the first case, when the text of the
    index is empty or ends with a line end and the link of the first update
    is one line (no line feed and no carriage return in its file name and
    its title), a second update puts its link line right before the link
    line of the first one. *)
Theorem update_index_inserts_link (fn t : string) (w : world) (text : string) (i : nat) :
  Fs.is_dir INDEX_FILE w = false ->
  files w !! INDEX_FILE = Some text ->
  first_at (Str.contains section_marker) 0 (Str.readlines text) i ->
  let link_line :=
    "    <li><a href=" +:+ Str.dq +:+ PosixPath.join NEWS_DIR fn +:+ Str.dq
    +:+ ">" +:+ t +:+ "</a></li>" +:+ Str.nl in
  (forall j, first_at (Str.contains "<ul") i (Str.readlines text) j ->
     update_index fn t w
     = (Ok tt,
        World (<[INDEX_FILE :=
                   Str.cat (take (S j) (Str.readlines text)
                            ++ link_line :: drop (S j) (Str.readlines text))]>
                 (files w))
              (dirs w) (stdout w)))
  /\ (none_from (Str.contains "<ul") i (Str.readlines text) ->
        update_index fn t w
        = (Ok tt,
           World (<[INDEX_FILE :=
                      Str.cat (take (S i) (Str.readlines text)
                               ++ link_line :: drop (S i) (Str.readlines text))]>
                    (files w))
                 (dirs w) (stdout w)))
  /\ (forall j fn' t',
        first_at (Str.contains "<ul") i (Str.readlines text) j ->
        lf_closed (Str.universal_newlines text) = true ->
        Str.has_char "010" fn = false -> Str.has_char "013" fn = false ->
        Str.has_char "010" t = false -> Str.has_char "013" t = false ->
        (update_index fn t ;;; update_index fn' t') w
        = (Ok tt,
           World (<[INDEX_FILE :=
                      Str.cat (take (S j) (Str.readlines text)
                               ++ ("    <li><a href=" +:+ Str.dq +:+ PosixPath.join NEWS_DIR fn'
                                   +:+ Str.dq +:+ ">" +:+ t' +:+ "</a></li>" +:+ Str.nl)
                               :: link_line
                               :: drop (S j) (Str.readlines text))]>
                    (files w))
                 (dirs w) (stdout w))).
Proof.
  intros Hdir Hfile Hi link_line.
  change link_line with (article_link fn t). clear link_line.
  rewrite (update_index_file fn t w text Hdir Hfile).
  split; [|split].
  - intros j Hj. by rewrite (patch_lines_after_ul _ _ i j).
  - intros Hno. by rewrite (patch_lines_after_section _ _ i).
  - intros j fn' t' Hj Hclosed Hfn Hfn' Ht Ht'.
    change ("    <li><a href=" +:+ Str.dq +:+ PosixPath.join NEWS_DIR fn'
            +:+ Str.dq +:+ ">" +:+ t' +:+ "</a></li>" +:+ Str.nl)
      with (article_link fn' t').
    unfold bind. rewrite (update_index_file fn t w text Hdir Hfile).
    erewrite update_index_file; [|exact Hdir|apply lookup_insert_eq].
    cbn [files dirs stdout]. rewrite insert_insert_eq.
    rewrite readlines_cat.
    + by rewrite (patch_lines_newest_first _ _ _ i j).
    + apply is_line_patch_lines; [by apply is_line_article_link|].
      apply is_line_splitlines; [apply has_char_universal_newlines | done].
Qed.

(** C4 on an index with the section and its list: the link goes to the
    fourth line, after the [<ul] line, and the link of a second update
    goes to the fourth line in its turn, before the first one. *)
Lemma update_index_inserts_link_witness :
  update_index "2026-11-03-le-sahel.html" "Le Sahel"
    (Sample.with_index
       (Str.cat [ "<main>"; Str.nl;
                  "  <section id="; Str.dq; "derniers-articles"; Str.dq; ">"; Str.nl;
                  "    <ul>"; Str.nl;
                  "    </ul>"; Str.nl;
                  "  </section>"; Str.nl;
                  "</main>"; Str.nl ]))
  = (Ok tt,
     World {[ INDEX_FILE :=
                Str.cat [ "<main>"; Str.nl;
                          "  <section id="; Str.dq; "derniers-articles"; Str.dq; ">"; Str.nl;
                          "    <ul>"; Str.nl;
                          "    <li><a href="; Str.dq; "news/2026-11-03-le-sahel.html"; Str.dq;
                            ">Le Sahel</a></li>"; Str.nl;
                          "    </ul>"; Str.nl;
                          "  </section>"; Str.nl;
                          "</main>"; Str.nl ] ]}
           ∅ [])
  /\ (update_index "2026-11-03-le-sahel.html" "Le Sahel"
      ;;; update_index "2026-11-04-le-niger.html" "Le Niger")
       (Sample.with_index
          (Str.cat [ "<main>"; Str.nl;
                     "  <section id="; Str.dq; "derniers-articles"; Str.dq; ">"; Str.nl;
                     "    <ul>"; Str.nl;
                     "    </ul>"; Str.nl;
                     "  </section>"; Str.nl;
                     "</main>"; Str.nl ]))
     = (Ok tt,
        World {[ INDEX_FILE :=
                   Str.cat [ "<main>"; Str.nl;
                             "  <section id="; Str.dq; "derniers-articles"; Str.dq; ">"; Str.nl;
                             "    <ul>"; Str.nl;
                             "    <li><a href="; Str.dq; "news/2026-11-04-le-niger.html";
                               Str.dq; ">Le Niger</a></li>"; Str.nl;
                             "    <li><a href="; Str.dq; "news/2026-11-03-le-sahel.html";
                               Str.dq; ">Le Sahel</a></li>"; Str.nl;
                             "    </ul>"; Str.nl;
                             "  </section>"; Str.nl;
                             "</main>"; Str.nl ] ]}
              ∅ []).
Proof.
  assert (first_at (Str.contains section_marker) 0
            (Str.readlines Sample.index_with_list) 1) as Hi
    by (apply find_idx_first; vm_compute; reflexivity).
  assert (first_at (Str.contains "<ul") 1 (Str.readlines Sample.index_with_list) 2) as Hj
    by (apply find_idx_from_first; vm_compute; reflexivity).
  destruct (update_index_inserts_link "2026-11-03-le-sahel.html" "Le Sahel"
              (Sample.with_index Sample.index_with_list)
              Sample.index_with_list 1 eq_refl eq_refl Hi) as (H1 & _ & H3).
  split.
  - refine (eq_trans (H1 2 Hj) _). vm_compute. reflexivity.
  - refine (eq_trans (H3 2 "2026-11-04-le-niger.html" "Le Niger" Hj
                        eq_refl eq_refl eq_refl eq_refl eq_refl) _).
    vm_compute. reflexivity.
Defined.

(** C4, the claim as the specification words it, fails: this index has
    the section line and no line with [<ul] at all, and the link is put
    right after the section line. *)
Lemma update_index_section_without_list :
  first_at (Str.contains section_marker) 0 (Str.readlines Sample.index_without_list) 0
  /\ none_from (Str.contains "<ul") 0 (Str.readlines Sample.index_without_list)
  /\ update_index "2026-11-03-le-sahel.html" "Le Sahel"
       (Sample.with_index Sample.index_without_list)
     = (Ok tt,
        Sample.with_index
          (Str.cat [ section_marker; ">"; Str.nl;
                     article_link "2026-11-03-le-sahel.html" "Le Sahel";
                     "</section>"; Str.nl ])).
Proof.
  split; [|split].
  - apply find_idx_first. vm_compute. reflexivity.
  - apply find_idx_none. vm_compute. reflexivity.
  - vm_compute. reflexivity.
Qed.

(** Why the second update of C4 needs a text that ends with a line end:
    on this index the [<ul] line is the last one and has no line feed, so
    the first link is written on that very line, and the second link goes
    after it. *)
Example update_index_unterminated_list :
  (update_index "2026-11-03-le-sahel.html" "Le Sahel"
   ;;; update_index "2026-11-04-le-niger.html" "Le Niger")
    (Sample.with_index
       (Str.cat [ "<section id="; Str.dq; "derniers-articles"; Str.dq; ">"; Str.nl;
                  "<ul>" ]))
  = (Ok tt,
     World {[ INDEX_FILE :=
                Str.cat [ "<section id="; Str.dq; "derniers-articles"; Str.dq; ">"; Str.nl;
                          "<ul>";
                          "    <li><a href="; Str.dq; "news/2026-11-03-le-sahel.html"; Str.dq;
                            ">Le Sahel</a></li>"; Str.nl;
                          "    <li><a href="; Str.dq; "news/2026-11-04-le-niger.html"; Str.dq;
                            ">Le Niger</a></li>"; Str.nl ] ]}
           ∅ []).
Proof. by vm_compute. Qed.

(** C9: when no line of the index has the section marker, the six lines of
    a new section (the section tag, the heading, the list tag, the link
    line, the two closing tags) go right before the first line that
    contains [</main>], and after the last line when there is no such
    line. *)
Theorem update_index_creates_section (fn t : string) (w : world) (text : string) :
  Fs.is_dir INDEX_FILE w = false ->
  files w !! INDEX_FILE = Some text ->
  none_from (Str.contains section_marker) 0 (Str.readlines text) ->
  let new_section :=
    [ "  <section id=" +:+ Str.dq +:+ "derniers-articles" +:+ Str.dq +:+ ">" +:+ Str.nl;
      "    <h2>Derniers articles</h2>" +:+ Str.nl;
      "    <ul>" +:+ Str.nl;
      "    <li><a href=" +:+ Str.dq +:+ PosixPath.join NEWS_DIR fn +:+ Str.dq
        +:+ ">" +:+ t +:+ "</a></li>" +:+ Str.nl;
      "    </ul>" +:+ Str.nl;
      "  </section>" +:+ Str.nl ] in
  (forall k, first_at (Str.contains "</main>") 0 (Str.readlines text) k ->
     update_index fn t w
     = (Ok tt,
        World (<[INDEX_FILE :=
                   Str.cat (take k (Str.readlines text)
                            ++ new_section
                            ++ drop k (Str.readlines text))]>
                 (files w))
              (dirs w) (stdout w)))
  /\ (none_from (Str.contains "</main>") 0 (Str.readlines text) ->
        update_index fn t w
        = (Ok tt,
           World (<[INDEX_FILE := Str.universal_newlines text +:+ Str.cat new_section]>
                    (files w))
                 (dirs w) (stdout w))).
Proof.
  intros Hdir Hfile Hno new_section.
  change new_section with (section_html (article_link fn t)). clear new_section.
  rewrite (update_index_file fn t w text Hdir Hfile). split.
  - intros k Hk. by rewrite (patch_lines_before_main _ _ k).
  - intros Hno'. rewrite patch_lines_at_end by done.
    by rewrite cat_app, cat_readlines.
Qed.

(** C9 on an index with a [main] element and no section: the six lines
    go before the third line, the one that closes [main]. *)
Lemma update_index_creates_section_witness :
  update_index "2026-11-03-le-sahel.html" "Le Sahel"
    (Sample.with_index
       (Str.cat [ "<main>"; Str.nl; "<p>Bonjour</p>"; Str.nl; "</main>"; Str.nl ]))
  = (Ok tt,
     World {[ INDEX_FILE :=
                Str.cat [ "<main>"; Str.nl;
                          "<p>Bonjour</p>"; Str.nl;
                          "  <section id="; Str.dq; "derniers-articles"; Str.dq; ">"; Str.nl;
                          "    <h2>Derniers articles</h2>"; Str.nl;
                          "    <ul>"; Str.nl;
                          "    <li><a href="; Str.dq; "news/2026-11-03-le-sahel.html"; Str.dq;
                            ">Le Sahel</a></li>"; Str.nl;
                          "    </ul>"; Str.nl;
                          "  </section>"; Str.nl;
                          "</main>"; Str.nl ] ]}
           ∅ []).
Proof.
  assert (none_from (Str.contains section_marker) 0
            (Str.readlines Sample.index_with_main)) as Hno
    by (apply find_idx_none; vm_compute; reflexivity).
  assert (first_at (Str.contains "</main>") 0 (Str.readlines Sample.index_with_main) 2) as Hk
    by (apply find_idx_first; vm_compute; reflexivity).
  refine (eq_trans
            (proj1 (update_index_creates_section "2026-11-03-le-sahel.html" "Le Sahel"
                      (Sample.with_index Sample.index_with_main)
                      Sample.index_with_main eq_refl eq_refl Hno) 2 Hk) _).
  vm_compute. reflexivity.
Defined.

Section Branches.

Variable charref_sub : string -> string.


End Branches.


(** C8 on an index whose last line has no line feed and which has neither
    the section nor a [main] element: the new section is written right
    after the last character, so that the line [<p>Bonjour</p>] that was
    read is not a line of the file any more. *)
Theorem update_index_merges_last_line :
  Str.readlines Sample.index_unterminated = ["<p>Bonjour</p>"]
  /\ update_index "2026-11-03-le-sahel.html" "Le Sahel"
       (Sample.with_index Sample.index_unterminated)
     = (Ok tt,
        Sample.with_index
          (Str.cat ("<p>Bonjour</p>"
                    :: section_html (article_link "2026-11-03-le-sahel.html" "Le Sahel"))))
  /\ Str.readlines
       (Str.cat ("<p>Bonjour</p>"
                 :: section_html (article_link "2026-11-03-le-sahel.html" "Le Sahel")))
     = [ "<p>Bonjour</p>  " +:+ section_marker +:+ ">" +:+ Str.nl;
         "    <h2>Derniers articles</h2>" +:+ Str.nl;
         "    <ul>" +:+ Str.nl;
         article_link "2026-11-03-le-sahel.html" "Le Sahel";
         "    </ul>" +:+ Str.nl;
         "  </section>" +:+ Str.nl ]
  /\ "<p>Bonjour</p>"
     ∉ Str.readlines
         (Str.cat ("<p>Bonjour</p>"
                   :: section_html (article_link "2026-11-03-le-sahel.html" "Le Sahel"))).
Proof.
  split; [by vm_compute|]. split; [by vm_compute|].
  assert (Str.readlines
       (Str.cat ("<p>Bonjour</p>"
                 :: section_html (article_link "2026-11-03-le-sahel.html" "Le Sahel")))
     = [ "<p>Bonjour</p>  " +:+ section_marker +:+ ">" +:+ Str.nl;
         "    <h2>Derniers articles</h2>" +:+ Str.nl;
         "    <ul>" +:+ Str.nl;
         article_link "2026-11-03-le-sahel.html" "Le Sahel";
         "    </ul>" +:+ Str.nl;
         "  </section>" +:+ Str.nl ]) as E by (by vm_compute).
  split; [exact E|]. rewrite E.
  rewrite !not_elem_of_cons. repeat split; try (by vm_compute).
  apply not_elem_of_nil.
Qed.

(** ** A whole run *)

Section Run.

Lemma update_index_runs (fn t : string) (w : world) :
  Fs.is_dir INDEX_FILE w = false ->
  exists w',
    update_index fn t w = (Ok tt, w')
    /\ dirs w' = dirs w /\ stdout w' = stdout w
    /\ (forall p, p <> INDEX_FILE -> files w' !! p = files w !! p).
Proof.
  intros Hdir. destruct (files w !! INDEX_FILE) as [text|] eqn:Hfile.
  - rewrite (update_index_file fn t w text Hdir Hfile).
    eexists. split; [reflexivity|]. cbn [dirs stdout files].
    repeat split. intros p Hp. by rewrite lookup_insert_ne.
  - apply is_file_false in Hfile. rewrite update_index_absent by done.
    by exists w.
Qed.

Variable charref_sub : string -> string.

Implicit Types (ev : env) (w : world) (a : article_data).

(** The page of an article whose hyphenated title holds no slash and no
    code point 0, written to the news directory. *)
Lemma generate_article_html_news ev w a :
  Str.has_char "/" (safe_title (title a)) = false ->
  Str.has_char "000" (safe_title (title a)) = false ->
  Fs.is_file NEWS_DIR w = false ->
  Fs.is_dir (PosixPath.join NEWS_DIR (article_filename (today ev) (title a))) w = false ->
  generate_article_html a (PosixPath.join NEWS_DIR (article_filename (today ev) (title a))) w
  = (Ok tt,
     World (<[PosixPath.join NEWS_DIR (article_filename (today ev) (title a))
              := article_html a]> (files w))
           (dirs w ∪ {[ NEWS_DIR ]}) (stdout w)).
Proof.
  intros Hslash Hnul Hnofile Hpath.
  destruct (article_path_in_news_dir (today ev) (title a) Hslash) as (_ & Edir & _).
  pose proof (join_news _ (startswith_slash_article_filename (today ev) (title a)))
    as Ejoin.
  destruct (article_filename_name (today ev) (title a)) as (Hn1 & Hn2 & Hn3).
  pose proof (has_char_article_filename (today ev) (title a) Hslash) as Hslash'.
  pose proof (has_nul_article_filename (today ev) (title a) Hnul) as Hnul'.
  set (fname := article_filename (today ev) (title a)) in *.
  unfold generate_article_html, bind.
  rewrite Edir, (makedirs_news w Hnofile), Ejoin.
  rewrite Ejoin in Hpath.
  rewrite (write_text_entry _ _ [NEWS_DIR; fname]).
  - by rewrite key_news.
  - apply resolve_news; try done.
    rewrite is_dir_union. by rewrite bool_decide_eq_true_2, orb_true_r.
  - rewrite key_news, is_dir_union, Hpath. by rewrite bool_decide_eq_false_2.
Qed.

(** A run with such an article, up to the update of the index. *)
Lemma main_renders ev w a :
  fetch_latest_entry charref_sub ev = Some a ->
  Str.has_char "/" (safe_title (title a)) = false ->
  Str.has_char "000" (safe_title (title a)) = false ->
  Fs.is_file NEWS_DIR w = false ->
  Fs.is_dir (PosixPath.join NEWS_DIR (article_filename (today ev) (title a))) w = false ->
  main charref_sub ev w
  = (update_index (article_filename (today ev) (title a)) (title a)
     ;;; Fs.print ("Article ajout" +:+ Str.e_acute +:+ " : "
                   +:+ article_filename (today ev) (title a)))
      (World (<[PosixPath.join NEWS_DIR (article_filename (today ev) (title a))
                := article_html a]> (files w))
             (dirs w ∪ {[ NEWS_DIR ]}) (stdout w)).
Proof.
  intros Hfetch Hslash Hnul Hnofile Hpath.
  unfold main. rewrite Hfetch. cbn zeta.
  unfold bind at 1.
  by rewrite (generate_article_html_news ev w a Hslash Hnul Hnofile Hpath).
Qed.

Lemma path_not_index ev a :
  PosixPath.join NEWS_DIR (article_filename (today ev) (title a)) <> INDEX_FILE.
Proof.
  rewrite (join_news _ (startswith_slash_article_filename (today ev) (title a))).
  discriminate.
Qed.

(** C5, as the code has it: when the news directory is missing and no
    regular file has its name, a run with an article makes the directory
    and goes on.  For an article whose hyphenated title holds no slash and
    no code point 0, with no directory at the path of the page and the
    index not a directory, the page is written in the new directory, which
    is the only directory made, and the run ends normally. *)
Theorem main_creates_news_dir ev w a :
  fetch_latest_entry charref_sub ev = Some a ->
  Str.has_char "/" (safe_title (title a)) = false ->
  Str.has_char "000" (safe_title (title a)) = false ->
  Fs.is_dir NEWS_DIR w = false ->
  Fs.is_file NEWS_DIR w = false ->
  Fs.is_dir (PosixPath.join NEWS_DIR (article_filename (today ev) (title a))) w = false ->
  Fs.is_dir INDEX_FILE w = false ->
  exists w',
    main charref_sub ev w = (Ok tt, w')
    /\ Fs.is_dir NEWS_DIR w' = true
    /\ dirs w' = dirs w ∪ {[ NEWS_DIR ]}
    /\ files w' !! PosixPath.join NEWS_DIR (article_filename (today ev) (title a))
       = Some (article_html a).
Proof.
  intros Hfetch Hslash Hnul Hnodir Hnofile Hpath Hindex.
  rewrite (main_renders ev w a Hfetch Hslash Hnul Hnofile Hpath).
  pose proof (path_not_index ev a) as Hne.
  set (fname := article_filename (today ev) (title a)) in *.
  set (path := PosixPath.join NEWS_DIR fname) in *.
  destruct (update_index_runs fname (title a)
              (World (<[path := article_html a]> (files w))
                     (dirs w ∪ {[ NEWS_DIR ]}) (stdout w)))
    as (w2 & E2 & Hdirs & Hout & Hfiles).
  { rewrite is_dir_union, Hindex. by rewrite bool_decide_eq_false_2. }
  unfold bind. rewrite E2. unfold Fs.print.
  eexists. split; [reflexivity|]. cbn [files dirs stdout] in *. split; [|split].
  - unfold Fs.is_dir. cbn [dirs]. rewrite Hdirs.
    apply bool_decide_eq_true. rewrite elem_of_union, elem_of_singleton. by right.
  - exact Hdirs.
  - rewrite Hfiles by done. apply lookup_insert_eq.
Qed.

End Run.

(** C5 on a run in an empty directory. *)
Lemma main_creates_news_dir_witness :
  exists w',
    main Sample.no_sub (Sample.feed_of Sample.full_entry) Sample.empty_world = (Ok tt, w')
    /\ Fs.is_dir NEWS_DIR w' = true
    /\ dirs w' = dirs Sample.empty_world ∪ {[ NEWS_DIR ]}
    /\ files w' !! PosixPath.join NEWS_DIR
                     (article_filename (today (Sample.feed_of Sample.full_entry))
                        "Le Sahel en 2026")
       = Some (article_html
                 (Article "Le Sahel en 2026" "https://example.org/sahel"
                    "Un point de situation." "Mon, 02 Nov 2026 08:00:00 +0000")).
Proof.
  apply (main_creates_news_dir Sample.no_sub (Sample.feed_of Sample.full_entry)
           Sample.empty_world
           (Article "Le Sahel en 2026" "https://example.org/sahel"
              "Un point de situation." "Mon, 02 Nov 2026 08:00:00 +0000"));
    by vm_compute.
Defined.

(** C5, the claim as the specification words it, fails: the news
    directory is missing, and the run ends normally, the directory made
    and the page in it. *)
Lemma main_without_news_dir :
  Fs.is_dir NEWS_DIR Sample.empty_world = false
  /\ main Sample.no_sub (Sample.feed_of Sample.full_entry) Sample.empty_world
     = (Ok tt,
        World {[ "news/2026-11-03-le-sahel-en-2026.html" :=
                   article_html
                     (Article "Le Sahel en 2026" "https://example.org/sahel"
                        "Un point de situation." "Mon, 02 Nov 2026 08:00:00 +0000") ]}
              {[ NEWS_DIR ]}
              [ "Article ajout" +:+ Str.e_acute +:+ " : 2026-11-03-le-sahel-en-2026.html" ]).
Proof. split; by vm_compute. Qed.

(** C6 on an entry whose title has a slash: the page is not a file of the
    news directory; it is [ukraine-:-le-point.html] in a directory made for
    it inside the news directory. *)
Theorem main_title_with_slash :
  article_filename Sample.a_date "Russie/Ukraine : le point"
  = "2026-11-03-russie/ukraine-:-le-point.html"
  /\ main Sample.no_sub (Sample.feed_of Sample.slash_entry) Sample.empty_world
     = (Ok tt,
        World {[ "news/2026-11-03-russie/ukraine-:-le-point.html" :=
                   article_html
                     (Article "Russie/Ukraine : le point" "https://example.org/ru-ua"
                        EmptyString Sample.a_clock) ]}
              {[ NEWS_DIR; "news/2026-11-03-russie" ]}
              [ "Article ajout" +:+ Str.e_acute
                +:+ " : 2026-11-03-russie/ukraine-:-le-point.html" ])
  /\ PosixPath.dirname "news/2026-11-03-russie/ukraine-:-le-point.html"
     = "news/2026-11-03-russie"
  /\ PosixPath.dirname "news/2026-11-03-russie/ukraine-:-le-point.html" <> NEWS_DIR.
Proof. repeat split; by vm_compute. Qed.

(** * Further properties of the code *)

(** ** The name of the page *)

Section FileName.

Lemma isspace_digit (n : nat) : Str.isspace (Str.digit n) = false.
Proof.
  unfold Str.digit.
  assert (n mod 10 < 10) as Hlt by (apply Nat.mod_upper_bound; lia).
  remember (n mod 10) as k eqn:Ek. clear Ek.
  do 10 (destruct k as [|k]; [by vm_compute|]). lia.
Qed.

Lemma has_space_app (a b : string) :
  has_space (a +:+ b) = has_space a || has_space b.
Proof.
  induction a as [|c a IH]; [done|].
  cbn [String.append has_space]. rewrite IH. apply orb_assoc.
Qed.

Lemma has_space_take (n : nat) (s : string) :
  has_space s = false -> has_space (Str.take n s) = false.
Proof.
  revert s. induction n as [|n IH]; intros [|x s]; cbn [Str.take has_space]; try done.
  intros [-> H]%orb_false_iff. by rewrite (IH s H).
Qed.

Lemma Forall_cons_word (P : string -> Prop) (w : string) (ws : list string) :
  P w -> Forall P ws -> Forall P (Str.cons_word w ws).
Proof. intros Hw Hws. destruct w; [done|]. by constructor. Qed.

(** The words that [split] gives hold no whitespace. *)
Lemma has_space_split (s : string) :
  Forall (fun w => has_space w = false) (Str.split s).
Proof.
  unfold Str.split.
  assert (has_space (Str.split_go s).1 = false
          /\ Forall (fun w => has_space w = false) (Str.split_go s).2) as Hgo.
  { induction s as [|x s IH]; [by split|].
    cbn [Str.split_go]. destruct (Str.split_go s) as [w ws].
    destruct IH as [Hw Hws]. cbn [fst snd] in Hw, Hws.
    destruct (Str.isspace x) eqn:Hx; cbn [fst snd has_space].
    - split; [done|]. by apply Forall_cons_word.
    - split; [by rewrite Hx, Hw | done]. }
  destruct (Str.split_go s) as [w ws]. destruct Hgo as [Hw Hws].
  by apply Forall_cons_word.
Qed.

Lemma has_space_join (sep : string) (ws : list string) :
  has_space sep = false ->
  Forall (fun w => has_space w = false) ws ->
  has_space (Str.join sep ws) = false.
Proof.
  intros Hsep. induction 1 as [|x ws Hx Hws IH]; [done|].
  destruct ws as [|y ws]; [done|].
  change (Str.join sep (x :: y :: ws)) with (x +:+ sep +:+ Str.join sep (y :: ws)).
  by rewrite !has_space_app, Hx, Hsep, IH.
Qed.

Lemma has_space_safe_title (t : string) : has_space (safe_title t) = false.
Proof.
  unfold safe_title. apply has_space_take, has_space_join; [done|].
  apply has_space_split.
Qed.

Lemma has_space_isoformat (d : date) : has_space (isoformat d) = false.
Proof.
  unfold isoformat, Str.d4, Str.d2. rewrite !has_space_app.
  cbn [has_space]. rewrite !isspace_digit. reflexivity.
Qed.

Lemma length_isoformat (d : date) : String.length (isoformat d) = 10.
Proof. unfold isoformat, Str.d4, Str.d2. by rewrite !str_length_app. Qed.

(** X1: whatever the title is, the file name that [main] builds holds no
    whitespace and has at most 66 characters. *)
Theorem article_filename_no_space (d : date) (t : string) :
  has_space (article_filename d t) = false
  /\ String.length (article_filename d t) <= 66.
Proof.
  unfold article_filename. split.
  - by rewrite !has_space_app, has_space_isoformat, has_space_safe_title.
  - rewrite !str_length_app, length_isoformat.
    pose proof (str_length_take 50 (Str.join "-" (Str.split (Str.lower t)))) as H.
    fold (safe_title t) in H. cbn [String.length]. lia.
Qed.

Lemma isspace_lower_char (c : ascii) : Str.isspace (Str.lower_char c) = Str.isspace c.
Proof. destruct c as [[] [] [] [] [] [] [] []]; by vm_compute. Qed.

Lemma all_space_lower (s : string) : all_space (Str.lower s) = all_space s.
Proof.
  induction s as [|c s IH]; [done|].
  cbn [Str.lower all_space]. by rewrite isspace_lower_char, IH.
Qed.

Lemma split_all_space (s : string) : all_space s = true -> Str.split s = [].
Proof.
  intros H. unfold Str.split.
  assert (Str.split_go s = (EmptyString, [])) as ->; [|done].
  induction s as [|c s IH]; [done|].
  cbn [all_space] in H. apply andb_true_iff in H as [Hc Hs].
  cbn [Str.split_go]. by rewrite (IH Hs), Hc.
Qed.

(** X16: a title that is empty or made of whitespace only gives the
    empty hyphenated title, so that the page of the day is named by the
    date alone. *)
Theorem article_filename_blank_title (d : date) (t : string) :
  all_space t = true ->
  safe_title t = EmptyString
  /\ article_filename d t = isoformat d +:+ "-.html".
Proof.
  intros H.
  assert (safe_title t = EmptyString) as E.
  { unfold safe_title. rewrite split_all_space; [done|]. by rewrite all_space_lower. }
  split; [done|]. unfold article_filename. by rewrite E.
Qed.

(** X17: the name that [main] builds starts with a digit of the year, so
    that [os.path.join] never takes it for an absolute path: whatever the
    title is, the path of the page, and the target of its link, is the
    news directory, a slash and the name. *)
Theorem article_path_under_news (d : date) (t : string) :
  PosixPath.join NEWS_DIR (article_filename d t) = "news/" +:+ article_filename d t
  /\ PosixPath.startswith_slash (PosixPath.join NEWS_DIR (article_filename d t)) = false.
Proof.
  rewrite join_news by apply startswith_slash_article_filename. by split.
Qed.

End FileName.

(** X16 on a title of two spaces and a tabulation. *)
Lemma article_filename_blank_title_witness :
  safe_title ("  " +:+ String "009"%char EmptyString) = EmptyString
  /\ article_filename Sample.a_date ("  " +:+ String "009"%char EmptyString)
     = isoformat Sample.a_date +:+ "-.html".
Proof.
  apply (article_filename_blank_title Sample.a_date
           ("  " +:+ String "009"%char EmptyString)).
  reflexivity.
Defined.

(** ** The page renderer, beyond one successful call *)

Section Renderer.

Implicit Types (a b : article_data) (p : string) (w : world).

(** X2: a path without a slash has no directory part, and
    [os.makedirs] refuses the empty path: the call raises
    [FileNotFoundError] and nothing is written. *)
Theorem generate_article_html_bare_name a p w :
  Str.has_char "/" p = false ->
  generate_article_html a p w = (Raise FileNotFoundError, w).
Proof.
  intros H. unfold generate_article_html, bind, Fs.makedirs, PosixPath.dirname.
  by rewrite (head_part_no_slash p H).
Qed.



End Renderer.

(** X2 on a page named without a directory. *)
Lemma generate_article_html_bare_name_witness :
  generate_article_html
    (Article "Le Sahel" "https://example.org/sahel" "Un point." Sample.a_clock)
    "page.html" Sample.empty_world
  = (Raise FileNotFoundError, Sample.empty_world).
Proof.
  apply (generate_article_html_bare_name
           (Article "Le Sahel" "https://example.org/sahel" "Un point." Sample.a_clock)
           "page.html" Sample.empty_world).
  reflexivity.
Defined.


(** ** The index updater, beyond one insertion *)

Section Updater.

Abbreviation CR := "013"%char.
Abbreviation LF := "010"%char.

Implicit Types (fn t text : string) (w : world) (lines : list string).

(** The three ways a call can end. *)
Lemma update_index_cases fn t w :
  update_index fn t w = (Ok tt, w)
  \/ (exists text',
        update_index fn t w
        = (Ok tt, World (<[INDEX_FILE := text']> (files w)) (dirs w) (stdout w)))
  \/ update_index fn t w = (Raise IsADirectoryError, w).
Proof.
  destruct (Fs.is_dir INDEX_FILE w) eqn:Hdir.
  { right; right. by apply update_index_dir. }
  destruct (files w !! INDEX_FILE) as [text|] eqn:Hfile.
  - right; left. eexists. by apply update_index_file.
  - left. apply update_index_absent; [by apply is_file_false | done].
Qed.

(** X5: whatever way the call ends, [update_index] makes and removes no
    directory, prints nothing and leaves every file other than the index as
    it was. *)
Theorem update_index_frame fn t w :
  dirs (update_index fn t w).2 = dirs w
  /\ stdout (update_index fn t w).2 = stdout w
  /\ (forall q, q <> INDEX_FILE ->
        files (update_index fn t w).2 !! q = files w !! q).
Proof.
  destruct (update_index_cases fn t w) as [-> | [(text' & ->) | ->]];
    cbn [snd files dirs stdout]; repeat split; try done.
  intros q Hq. by rewrite lookup_insert_ne.
Qed.

(** X6: the text written is the text read, its line ends read as line
    feeds, with the new lines put in at one place: no character that was
    there is dropped or moved.  A text without carriage return is kept as
    it is. *)
Theorem update_index_inserts_text fn t w text :
  Fs.is_dir INDEX_FILE w = false ->
  files w !! INDEX_FILE = Some text ->
  exists before after new_lines,
    Str.universal_newlines text = before +:+ after
    /\ (Str.has_char CR text = false -> text = before +:+ after)
    /\ (new_lines = [article_link fn t] \/ new_lines = section_html (article_link fn t))
    /\ update_index fn t w
       = (Ok tt,
          World (<[INDEX_FILE := before +:+ Str.cat new_lines +:+ after]> (files w))
                (dirs w) (stdout w)).
Proof.
  intros Hdir Hfile. rewrite (update_index_file fn t w text Hdir Hfile).
  destruct (patch_lines_shape (article_link fn t) (Str.readlines text))
    as (i & new_lines & -> & Hnew).
  exists (Str.cat (take i (Str.readlines text))),
         (Str.cat (drop i (Str.readlines text))), new_lines.
  assert (Str.universal_newlines text
          = Str.cat (take i (Str.readlines text)) +:+ Str.cat (drop i (Str.readlines text)))
    as E by (by rewrite <- cat_app, take_drop, cat_readlines).
  split; [done|]. split.
  - intros Hcr. by rewrite <- E, universal_newlines_id.
  - split; [done|]. by rewrite !cat_app.
Qed.

(** X7: an index with carriage returns is written back with line feeds
    only: when the file name and the title of the link hold no carriage
    return, the text written holds none. *)
Theorem update_index_line_feeds fn t w text :
  Fs.is_dir INDEX_FILE w = false ->
  files w !! INDEX_FILE = Some text ->
  Str.has_char CR fn = false ->
  Str.has_char CR t = false ->
  exists text',
    update_index fn t w
    = (Ok tt, World (<[INDEX_FILE := text']> (files w)) (dirs w) (stdout w))
    /\ Str.has_char CR text' = false.
Proof.
  intros Hdir Hfile Hfn Ht.
  rewrite (update_index_file fn t w text Hdir Hfile).
  eexists. split; [reflexivity|].
  destruct (patch_lines_shape (article_link fn t) (Str.readlines text))
    as (i & new_lines & -> & Hnew).
  pose proof (has_char_universal_newlines text) as Hcr.
  rewrite <- cat_readlines, <- (take_drop i (Str.readlines text)) in Hcr.
  rewrite cat_app, has_char_app in Hcr. apply orb_false_iff in Hcr as [Hb Ha].
  rewrite !cat_app, !has_char_app, Hb, Ha, orb_false_r. cbn [orb].
  assert (Str.has_char CR (article_link fn t) = false) as Hlink
    by (by apply has_char_cr_article_link).
  destruct Hnew as [-> | ->].
  - by rewrite cat_cons, has_char_app, Hlink.
  - unfold section_html. rewrite !cat_cons, !has_char_app, Hlink. reflexivity.
Qed.

Lemma count_line_app (x : string) (l k : list string) :
  count_line x (l ++ k) = count_line x l + count_line x k.
Proof. unfold count_line. by rewrite filter_app, length_app. Qed.

Lemma count_line_cons (x y : string) (l : list string) :
  count_line x (y :: l) = (if decide (y = x) then 1 else 0) + count_line x l.
Proof. unfold count_line. rewrite filter_cons. by case_decide. Qed.

(** X8: there is no deduplication: each update adds exactly one line equal
    to the link line, also when the same link is listed already. *)
Theorem patch_lines_adds_one_link fn t lines :
  count_line (article_link fn t) (patch_lines (article_link fn t) lines)
  = S (count_line (article_link fn t) lines).
Proof.
  destruct (patch_lines_shape (article_link fn t) lines) as (i & new_lines & -> & Hnew).
  rewrite <- (take_drop i lines) at 3. rewrite !count_line_app.
  assert (count_line (article_link fn t) new_lines = 1) as ->; [|lia].
  destruct Hnew as [-> | ->].
  - rewrite count_line_cons. by rewrite decide_True.
  - unfold section_html. rewrite !count_line_cons.
    rewrite (decide_True (P := article_link fn t = article_link fn t)) by done.
    repeat (rewrite decide_False; [|unfold article_link; cbn [String.append]; discriminate]).
    reflexivity.
Qed.

(** X9: the lines read from a text, written one after the other and read
    again, are the same lines. *)
Theorem readlines_cat_readlines text :
  Str.readlines (Str.cat (Str.readlines text)) = Str.readlines text.
Proof.
  rewrite cat_readlines. unfold Str.readlines.
  by rewrite (universal_newlines_id (Str.universal_newlines text))
    by apply has_char_universal_newlines.
Qed.

(** X10: two updates in a row.  When the text read is empty or ends with
    a line feed and the link of the first update is one line (no line feed
    and no carriage return in its file name and title), the second update
    reads exactly the lines that the first one wrote, and the index holds
    the lines patched twice. *)
Theorem update_index_twice fn t fn' t' w text :
  Fs.is_dir INDEX_FILE w = false ->
  files w !! INDEX_FILE = Some text ->
  lf_closed (Str.universal_newlines text) = true ->
  Str.has_char LF fn = false -> Str.has_char CR fn = false ->
  Str.has_char LF t = false -> Str.has_char CR t = false ->
  (update_index fn t ;;; update_index fn' t') w
  = (Ok tt,
     World (<[INDEX_FILE :=
                Str.cat (patch_lines (article_link fn' t')
                           (patch_lines (article_link fn t) (Str.readlines text)))]>
              (files w))
           (dirs w) (stdout w)).
Proof.
  intros Hdir Hfile Hclosed Hfn Hfn' Ht Ht'.
  unfold bind. rewrite (update_index_file fn t w text Hdir Hfile).
  erewrite update_index_file; [|exact Hdir|apply lookup_insert_eq].
  cbn [files dirs stdout]. rewrite insert_insert_eq.
  rewrite readlines_cat; [done|].
  apply is_line_patch_lines; [by apply is_line_article_link|].
  apply is_line_splitlines; [apply has_char_universal_newlines | done].
Qed.

End Updater.

(** X6 on an index with carriage returns and no section. *)
Lemma update_index_inserts_text_witness :
  exists before after new_lines,
    Str.universal_newlines ("<main>" +:+ String "013"%char Str.nl +:+ "</main>" +:+ Str.nl)
    = before +:+ after
    /\ (Str.has_char "013"%char ("<main>" +:+ String "013"%char Str.nl +:+ "</main>" +:+ Str.nl)
        = false ->
        "<main>" +:+ String "013"%char Str.nl +:+ "</main>" +:+ Str.nl = before +:+ after)
    /\ (new_lines = [article_link "2026-11-03-le-sahel.html" "Le Sahel"]
        \/ new_lines = section_html (article_link "2026-11-03-le-sahel.html" "Le Sahel"))
    /\ update_index "2026-11-03-le-sahel.html" "Le Sahel"
         (Sample.with_index ("<main>" +:+ String "013"%char Str.nl +:+ "</main>" +:+ Str.nl))
       = (Ok tt,
          World (<[INDEX_FILE := before +:+ Str.cat new_lines +:+ after]>
                   (files (Sample.with_index
                             ("<main>" +:+ String "013"%char Str.nl +:+ "</main>" +:+ Str.nl))))
                ∅ []).
Proof.
  apply (update_index_inserts_text "2026-11-03-le-sahel.html" "Le Sahel"
           (Sample.with_index ("<main>" +:+ String "013"%char Str.nl +:+ "</main>" +:+ Str.nl))
           ("<main>" +:+ String "013"%char Str.nl +:+ "</main>" +:+ Str.nl));
    reflexivity.
Defined.

(** X7 on the same index. *)
Lemma update_index_line_feeds_witness :
  exists text',
    update_index "2026-11-03-le-sahel.html" "Le Sahel"
      (Sample.with_index ("<main>" +:+ String "013"%char Str.nl +:+ "</main>" +:+ Str.nl))
    = (Ok tt,
       World (<[INDEX_FILE := text']>
                (files (Sample.with_index
                          ("<main>" +:+ String "013"%char Str.nl +:+ "</main>" +:+ Str.nl))))
             ∅ [])
    /\ Str.has_char "013"%char text' = false.
Proof.
  apply (update_index_line_feeds "2026-11-03-le-sahel.html" "Le Sahel"
           (Sample.with_index ("<main>" +:+ String "013"%char Str.nl +:+ "</main>" +:+ Str.nl))
           ("<main>" +:+ String "013"%char Str.nl +:+ "</main>" +:+ Str.nl));
    reflexivity.
Defined.

(** X10 on the index with the section and its list, updated on two days. *)
Lemma update_index_twice_witness :
  (update_index "2026-11-03-le-sahel.html" "Le Sahel"
   ;;; update_index "2026-11-04-le-niger.html" "Le Niger")
    (Sample.with_index Sample.index_with_list)
  = (Ok tt,
     World (<[INDEX_FILE :=
                Str.cat (patch_lines (article_link "2026-11-04-le-niger.html" "Le Niger")
                           (patch_lines (article_link "2026-11-03-le-sahel.html" "Le Sahel")
                              (Str.readlines Sample.index_with_list)))]>
              (files (Sample.with_index Sample.index_with_list)))
           ∅ []).
Proof.
  apply (update_index_twice "2026-11-03-le-sahel.html" "Le Sahel"
           "2026-11-04-le-niger.html" "Le Niger"
           (Sample.with_index Sample.index_with_list) Sample.index_with_list);
    by vm_compute.
Defined.

(** ** A whole run, by what it finds *)

Section Outcomes.

Lemma link_in_patch_lines (link_line : string) (lines : list string) :
  link_line ∈ patch_lines link_line lines.
Proof.
  destruct (patch_lines_shape link_line lines) as (i & new_lines & -> & Hnew).
  apply elem_of_app. right. apply elem_of_app. left.
  destruct Hnew as [-> | ->]; [apply list_elem_of_here|].
  unfold section_html. do 3 apply list_elem_of_further. apply list_elem_of_here.
Qed.

Variable charref_sub : string -> string.

Implicit Types (ev : env) (w : world) (a : article_data).

(** X11: when a regular file has the name of the news directory, a run
    with an article raises [FileExistsError] before it writes anything:
    no page, no change of the index, nothing printed. *)
Theorem main_news_dir_is_a_file ev w a :
  fetch_latest_entry charref_sub ev = Some a ->
  Str.has_char "/" (safe_title (title a)) = false ->
  Fs.is_file NEWS_DIR w = true ->
  Fs.is_dir NEWS_DIR w = false ->
  main charref_sub ev w = (Raise FileExistsError, w).
Proof.
  intros Hfetch Hslash Hfile Hdir.
  destruct (article_path_in_news_dir (today ev) (title a) Hslash) as (_ & Edir & _).
  unfold main. rewrite Hfetch. cbn zeta.
  unfold bind at 1. unfold generate_article_html, bind at 1.
  by rewrite Edir, (makedirs_news_file w Hfile Hdir).
Qed.

(** X12: when a directory has the name of the index, a run with an
    article still makes the news directory and writes the page, and then
    raises [IsADirectoryError]: the page is there without a link, and the
    message of success is not printed.  The hyphenated title holds no
    slash and no code point 0, no regular file has the name of the news
    directory and no directory is at the path of the page. *)
Theorem main_index_is_a_directory ev w a :
  fetch_latest_entry charref_sub ev = Some a ->
  Str.has_char "/" (safe_title (title a)) = false ->
  Str.has_char "000" (safe_title (title a)) = false ->
  Fs.is_file NEWS_DIR w = false ->
  Fs.is_dir (PosixPath.join NEWS_DIR (article_filename (today ev) (title a))) w = false ->
  Fs.is_dir INDEX_FILE w = true ->
  main charref_sub ev w
  = (Raise IsADirectoryError,
     World (<[PosixPath.join NEWS_DIR (article_filename (today ev) (title a))
              := article_html a]> (files w))
           (dirs w ∪ {[ NEWS_DIR ]}) (stdout w)).
Proof.
  intros Hfetch Hslash Hnul Hnofile Hpath Hindex.
  rewrite (main_renders charref_sub ev w a) by done.
  unfold bind. rewrite update_index_dir; [done|].
  rewrite is_dir_union, Hindex. done.
Qed.

(** X13: when nothing has the name of the index, a run with an article
    makes the news directory, writes the page and prints the message of
    success; the index is not made, so that no link leads to the page.  The
    hyphenated title holds no slash and no code point 0, no regular file
    has the name of the news directory and no directory is at the path of
    the page. *)
Theorem main_index_missing ev w a :
  fetch_latest_entry charref_sub ev = Some a ->
  Str.has_char "/" (safe_title (title a)) = false ->
  Str.has_char "000" (safe_title (title a)) = false ->
  Fs.is_file NEWS_DIR w = false ->
  Fs.is_dir (PosixPath.join NEWS_DIR (article_filename (today ev) (title a))) w = false ->
  Fs.is_file INDEX_FILE w = false ->
  Fs.is_dir INDEX_FILE w = false ->
  main charref_sub ev w
  = (Ok tt,
     World (<[PosixPath.join NEWS_DIR (article_filename (today ev) (title a))
              := article_html a]> (files w))
           (dirs w ∪ {[ NEWS_DIR ]})
           (stdout w ++ [ "Article ajout" +:+ Str.e_acute +:+ " : "
                          +:+ article_filename (today ev) (title a) ]))
  /\ (<[PosixPath.join NEWS_DIR (article_filename (today ev) (title a))
        := article_html a]> (files w)) !! INDEX_FILE = None.
Proof.
  intros Hfetch Hslash Hnul Hnofile Hpath Hfile Hindex.
  pose proof (path_not_index ev a) as Hne.
  apply is_file_false in Hfile.
  split; [|by rewrite lookup_insert_ne].
  rewrite (main_renders charref_sub ev w a) by done.
  unfold bind. rewrite update_index_absent; [done| |].
  - apply is_file_false. cbn [files]. by rewrite lookup_insert_ne.
  - rewrite is_dir_union, Hindex. done.
Qed.

(** X14: when the index is a file, a run with an article writes the page
    and the index, and the link line put in the index has as its [href]
    the very path at which the page was written, and the title as it is as
    its text.  The hyphenated title holds no slash and no code point 0, no
    regular file has the name of the news directory, no directory is at
    the path of the page and the index is not a directory. *)
Theorem main_links_the_page ev w a (text : string) :
  fetch_latest_entry charref_sub ev = Some a ->
  Str.has_char "/" (safe_title (title a)) = false ->
  Str.has_char "000" (safe_title (title a)) = false ->
  Fs.is_file NEWS_DIR w = false ->
  Fs.is_dir (PosixPath.join NEWS_DIR (article_filename (today ev) (title a))) w = false ->
  Fs.is_dir INDEX_FILE w = false ->
  files w !! INDEX_FILE = Some text ->
  let path := PosixPath.join NEWS_DIR (article_filename (today ev) (title a)) in
  let link_line :=
    "    <li><a href=" +:+ Str.dq +:+ path +:+ Str.dq
    +:+ ">" +:+ title a +:+ "</a></li>" +:+ Str.nl in
  main charref_sub ev w
  = (Ok tt,
     World (<[INDEX_FILE := Str.cat (patch_lines link_line (Str.readlines text))]>
              (<[path := article_html a]> (files w)))
           (dirs w ∪ {[ NEWS_DIR ]})
           (stdout w ++ [ "Article ajout" +:+ Str.e_acute +:+ " : "
                          +:+ article_filename (today ev) (title a) ]))
  /\ path <> INDEX_FILE
  /\ link_line ∈ patch_lines link_line (Str.readlines text).
Proof.
  intros Hfetch Hslash Hnul Hnofile Hpath Hindex Hfile path link_line.
  pose proof (path_not_index ev a) as Hne.
  change link_line with (article_link (article_filename (today ev) (title a)) (title a)).
  clear link_line. fold path in Hne, Hpath.
  split; [|split; [exact Hne | apply link_in_patch_lines]].
  rewrite (main_renders charref_sub ev w a) by done. fold path.
  unfold bind. erewrite update_index_file; cycle 1.
  { rewrite is_dir_union, Hindex. done. }
  { cbn [files]. rewrite lookup_insert_ne by done. exact Hfile. }
  reflexivity.
Qed.

(** X15: whatever a run finds and whatever way it ends, it removes no
    file and no directory; it prints exactly one message when it ends
    normally and none when it raises. *)
Theorem main_only_adds ev w :
  dirs w ⊆ dirs (main charref_sub ev w).2
  /\ (forall q, is_Some (files w !! q) -> is_Some (files (main charref_sub ev w).2 !! q))
  /\ match (main charref_sub ev w).1 with
     | Ok _ => exists message, stdout (main charref_sub ev w).2 = stdout w ++ [message]
     | Raise _ => stdout (main charref_sub ev w).2 = stdout w
     end.
Proof.
  assert (forall (m : gmap string string) p x q,
            is_Some (m !! q) -> is_Some (<[p := x]> m !! q)) as Hkeep.
  { intros m p x q Hq. destruct (decide (p = q)) as [->|Hpq].
    - rewrite lookup_insert_eq. by eexists.
    - by rewrite lookup_insert_ne. }
  unfold main. destruct (fetch_latest_entry charref_sub ev) as [a|].
  2:{ unfold Fs.print. cbn [fst snd files dirs stdout].
      split; [reflexivity|]. split; [by intros|]. by eexists. }
  cbn zeta. unfold bind.
  generalize (article_filename (today ev) (title a)). intros fname.
  generalize (PosixPath.join NEWS_DIR fname). intros path.
  generalize (title a). intros t.
  destruct (generate_article_html a path w) as [[[]|e] w1] eqn:E1.
  - apply generate_article_html_Ok in E1 as (loc & _ & _ & _ & E1 & Hsub).
    assert (files w1 = <[Fs.key loc := article_html a]> (files w)) as Ef
      by (by rewrite E1).
    assert (stdout w1 = stdout w) as Eo by (by rewrite E1).
    destruct (update_index_cases fname t w1) as [-> | [(text' & ->) | ->]];
      unfold Fs.print; cbn [fst snd files dirs stdout].
    + split; [exact Hsub|]. split; [|rewrite Eo; by eexists].
      intros q Hq. rewrite Ef. by apply Hkeep.
    + split; [exact Hsub|]. split; [|rewrite Eo; by eexists].
      intros q Hq. rewrite Ef. by apply Hkeep, Hkeep.
    + split; [exact Hsub|]. split; [|exact Eo].
      intros q Hq. rewrite Ef. by apply Hkeep.
  - apply generate_article_html_Raise in E1 as (Hf & Ho & Hd).
    cbn [fst snd]. split; [exact Hd|]. split; [|exact Ho].
    intros q Hq. by rewrite Hf.
Qed.

End Outcomes.

(** X11 on a directory where [news] is a regular file. *)
Lemma main_news_dir_is_a_file_witness :
  main Sample.no_sub (Sample.feed_of Sample.full_entry)
    (World {[ NEWS_DIR := "un fichier" ]} ∅ [])
  = (Raise FileExistsError, World {[ NEWS_DIR := "un fichier" ]} ∅ []).
Proof.
  apply (main_news_dir_is_a_file Sample.no_sub (Sample.feed_of Sample.full_entry)
           (World {[ NEWS_DIR := "un fichier" ]} ∅ []) Sample.full_article);
    by vm_compute.
Defined.

(** X12 on a directory where [index.html] is a directory. *)
Lemma main_index_is_a_directory_witness :
  main Sample.no_sub (Sample.feed_of Sample.full_entry) Sample.index_dir_world
  = (Raise IsADirectoryError,
     World (<[PosixPath.join NEWS_DIR
                (article_filename (today (Sample.feed_of Sample.full_entry))
                   (title Sample.full_article))
              := article_html Sample.full_article]> (files Sample.index_dir_world))
           (dirs Sample.index_dir_world ∪ {[ NEWS_DIR ]})
           (stdout Sample.index_dir_world)).
Proof.
  apply (main_index_is_a_directory Sample.no_sub (Sample.feed_of Sample.full_entry)
           Sample.index_dir_world Sample.full_article);
    by vm_compute.
Defined.

(** X13 on an empty directory. *)
Lemma main_index_missing_witness :
  main Sample.no_sub (Sample.feed_of Sample.full_entry) Sample.empty_world
  = (Ok tt,
     World (<[PosixPath.join NEWS_DIR
                (article_filename (today (Sample.feed_of Sample.full_entry))
                   (title Sample.full_article))
              := article_html Sample.full_article]> (files Sample.empty_world))
           (dirs Sample.empty_world ∪ {[ NEWS_DIR ]})
           (stdout Sample.empty_world
            ++ [ "Article ajout" +:+ Str.e_acute +:+ " : "
                 +:+ article_filename (today (Sample.feed_of Sample.full_entry))
                       (title Sample.full_article) ]))
  /\ (<[PosixPath.join NEWS_DIR
          (article_filename (today (Sample.feed_of Sample.full_entry))
             (title Sample.full_article))
        := article_html Sample.full_article]> (files Sample.empty_world))
     !! INDEX_FILE = None.
Proof.
  apply (main_index_missing Sample.no_sub (Sample.feed_of Sample.full_entry)
           Sample.empty_world Sample.full_article);
    by vm_compute.
Defined.

(** X14 on a directory with the index that has the section and its list:
    the page, and the index with the link to it after the [<ul] line. *)
Lemma main_links_the_page_witness :
  main Sample.no_sub (Sample.feed_of Sample.full_entry)
    (Sample.with_index Sample.index_with_list)
  = (Ok tt,
     World {[ "news/2026-11-03-le-sahel-en-2026.html" := article_html Sample.full_article;
              INDEX_FILE :=
                Str.cat [ "<main>"; Str.nl;
                          "  <section id="; Str.dq; "derniers-articles"; Str.dq; ">"; Str.nl;
                          "    <ul>"; Str.nl;
                          "    <li><a href="; Str.dq;
                            "news/2026-11-03-le-sahel-en-2026.html"; Str.dq;
                            ">Le Sahel en 2026</a></li>"; Str.nl;
                          "    </ul>"; Str.nl;
                          "  </section>"; Str.nl;
                          "</main>"; Str.nl ] ]}
           {[ NEWS_DIR ]}
           [ "Article ajout" +:+ Str.e_acute +:+ " : 2026-11-03-le-sahel-en-2026.html" ]).
Proof.
  refine (eq_trans
            (proj1 (main_links_the_page Sample.no_sub (Sample.feed_of Sample.full_entry)
                      (Sample.with_index Sample.index_with_list) Sample.full_article
                      Sample.index_with_list eq_refl eq_refl eq_refl eq_refl eq_refl
                      eq_refl eq_refl)) _).
  vm_compute. reflexivity.
Defined.

Example full_article_ex :
  fetch_latest_entry Sample.no_sub (Sample.feed_of Sample.full_entry)
  = Some Sample.full_article
  /\ article_filename Sample.a_date (title Sample.full_article) = Sample.full_name
  /\ PosixPath.join NEWS_DIR Sample.full_name = Sample.full_path.
Proof. by vm_compute. Qed.

(** ** The primitives on samples *)

Example split_ex :
  Str.split ("  Le  monde" +:+ Str.nl +:+ "en bref ") = ["Le"; "monde"; "en"; "bref"].
Proof. by vm_compute. Qed.

Example readlines_ex :
  Str.readlines ("a" +:+ String "013"%char Str.nl +:+ "b" +:+ String "013"%char "c")
  = ["a" +:+ Str.nl; "b" +:+ Str.nl; "c"].
Proof. by vm_compute. Qed.

Example lower_ex :
  Str.lower ("AZ" +:+ String "201"%char "z/") = "az" +:+ Str.e_acute +:+ "z/".
Proof. by vm_compute. Qed.

Example safe_title_ex :
  safe_title "Le  Sahel en 2026 : un point de situation, pays par pays, avant l'hiver"
  = "le-sahel-en-2026-:-un-point-de-situation,-pays-par".
Proof. by vm_compute. Qed.

Example isoformat_ex : isoformat (Date 2026 1 3) = "2026-01-03".
Proof. by vm_compute. Qed.

Example dirname_ex :
  PosixPath.dirname "news/a.html" = "news"
  /\ PosixPath.dirname "index.html" = EmptyString
  /\ PosixPath.dirname "/a" = "/"
  /\ PosixPath.dirname "a//b" = "a".
Proof. by vm_compute. Qed.

Example join_ex :
  PosixPath.join "news" "a.html" = "news/a.html"
  /\ PosixPath.join "news" "/a.html" = "/a.html"
  /\ PosixPath.join "news/" "a.html" = "news/a.html".
Proof. by vm_compute. Qed.

